(** * COREP Reporting Assistant: own-funds template (C01)

    A shallow embedding of the React front end
    ([TemplateViewer.jsx], [AuditTrail], [ValidationPanel.jsx], [App],
    [QueryInterface]) and of the template population, validation and
    provenance engine that serves it, followed by the properties proved
    about them. *)

From Stdlib Require Import ZArith NArith QArith Qcanon List String Ascii Bool.
From Stdlib Require Import Sorted Permutation Lia DecimalString.
From stdpp Require Import base list strings gmap numbers sorting.

Local Open Scope string_scope.
Local Open Scope Z_scope.

(** ** The JavaScript platform *)

Module JS.

(** *** Numbers

    A JavaScript number is an IEEE-754 double.  The components only test the
    sign of a number, take its absolute value and hand it to the formatter;
    none of these rounds, so a sign, a binary mantissa and an exponent
    describe every double exactly.  [Finite neg m e] is
    (-1)^neg * m * 2^e; a zero mantissa is +0 or -0. *)
Inductive number : Type :=
  | NaN
  | Infinity (neg : bool)
  | Finite (neg : bool) (mant : N) (exp : Z).

Definition of_Z (z : Z) : number := Finite (z <? 0) (Z.abs_N z) 0.

Definition neg_zero : number := Finite true 0 0.

(** [x < 0] *)
Definition lt0 (x : number) : bool :=
  match x with
  | NaN => false
  | Infinity neg => neg
  | Finite neg m _ => neg && negb (m =? 0)%N
  end.

(** [x >= 0] *)
Definition ge0 (x : number) : bool :=
  match x with
  | NaN => false
  | Infinity neg => negb neg
  | Finite neg m _ => negb neg || (m =? 0)%N
  end.

(** [Object.is(x, -0)] *)
Definition is_neg_zero (x : number) : bool :=
  match x with
  | Finite true m _ => (m =? 0)%N
  | _ => false
  end.

(** [Math.abs(x)] *)
Definition Math_abs (x : number) : number :=
  match x with
  | NaN => NaN
  | Infinity _ => Infinity false
  | Finite _ m e => Finite false m e
  end.

(** *** Values held by the objects of a response *)
Inductive value : Type :=
  | Undefined
  | Null
  | Num (x : number)
  | Str (s : string)
  | Bool (b : bool).

(** [v === null] and [v === undefined] *)
Definition is_null (v : value) : bool :=
  match v with Null => true | _ => false end.

Definition is_undefined (v : value) : bool :=
  match v with Undefined => true | _ => false end.

(** What a money cell of the response holds: [number | null], or
    [undefined] when the property is absent. *)
Inductive amount : Type :=
  | NoAmount
  | NullAmount
  | Amount (x : number).

(** A plain object: its own properties in insertion order.  Reading a
    property that is absent yields [undefined]. *)
Abbreviation object := (list (string * value)).

Fixpoint get (o : object) (key : string) : value :=
  match o with
  | [] => Undefined
  | (k, v) :: o' => if String.eqb k key then v else get o' key
  end.

(** *** Strings of user text

    The text typed into a form is a sequence of UTF-16 code units. *)
Abbreviation ustring := (list N).

(** WhiteSpace and LineTerminator code points of ECMA-262, all of them in
    the basic plane. *)
Definition is_white_space (c : N) : bool :=
  ((c =? 0x09) || (c =? 0x0A) || (c =? 0x0B) || (c =? 0x0C) || (c =? 0x0D)
   || (c =? 0x20) || (c =? 0xA0) || (c =? 0x1680)
   || ((0x2000 <=? c) && (c <=? 0x200A))
   || (c =? 0x2028) || (c =? 0x2029) || (c =? 0x202F) || (c =? 0x205F)
   || (c =? 0x3000) || (c =? 0xFEFF))%N.

Fixpoint trim_start (s : ustring) : ustring :=
  match s with
  | c :: s' => if is_white_space c then trim_start s' else s
  | [] => []
  end.

Definition trim_end (s : ustring) : ustring := rev (trim_start (rev s)).

(** [s.trim()] *)
Definition trim (s : ustring) : ustring := trim_end (trim_start s).

(** ToBoolean of a string: the empty string is the only falsy one. *)
Definition truthy (s : ustring) : bool :=
  match s with [] => false | _ => true end.

(** The code units of an ASCII literal. *)
Fixpoint lit (s : string) : ustring :=
  match s with
  | EmptyString => []
  | String c s' => N_of_ascii c :: lit s'
  end.

(** *** Identifier strings (ASCII) *)

Fixpoint string_drop (n : nat) (s : string) : string :=
  match n, s with
  | O, _ => s
  | S n', String _ s' => string_drop n' s'
  | S _, EmptyString => EmptyString
  end.

(** [s.replace(pat, rep)] with a string pattern: the first occurrence only. *)
Fixpoint replace (pat rep s : string) : string :=
  if String.prefix pat s then rep ++ string_drop (String.length pat) s
  else match s with
       | EmptyString => EmptyString
       | String c s' => String c (replace pat rep s')
       end.

Definition is_ascii_space (c : ascii) : bool :=
  let n := N_of_ascii c in
  ((n =? 9) || (n =? 10) || (n =? 11) || (n =? 12) || (n =? 13) || (n =? 32))%N.

Fixpoint skip_spaces (s : string) : string :=
  match s with
  | String c s' => if is_ascii_space c then skip_spaces s' else s
  | EmptyString => EmptyString
  end.

Definition digit_of (radix : Z) (c : ascii) : option Z :=
  let n := Z.of_N (N_of_ascii c) in
  let d := if (48 <=? n) && (n <=? 57) then n - 48
           else if (97 <=? n) && (n <=? 122) then n - 87
           else if (65 <=? n) && (n <=? 90) then n - 55
           else 36 in
  if d <? radix then Some d else None.

(** The longest prefix of digits, read in [radix]; [acc] is [None] until a
    digit has been seen. *)
Fixpoint parse_digits (radix : Z) (s : string) (acc : option Z) : option Z :=
  match s with
  | EmptyString => acc
  | String c s' =>
      match digit_of radix c with
      | Some d => parse_digits radix s' (Some (radix * default 0 acc + d))
      | None => acc
      end
  end.

(** [parseInt(s)] with no radix, on ASCII input; [None] is NaN.  The
    integers read here have at most three digits, so the double that
    [parseInt] returns is the integer itself. *)
Definition parseInt (s : string) : option Z :=
  let s := skip_spaces s in
  let '(sign, s) :=
    match s with
    | String "-" s' => (-1, s')
    | String "+" s' => (1, s')
    | _ => (1, s)
    end in
  let '(radix, s) :=
    if String.prefix "0x" s || String.prefix "0X" s
    then (16, string_drop 2 s) else (10, s) in
  option_map (Z.mul sign) (parse_digits radix s None).

(** [a - b] on the results of [parseInt]: NaN is absorbing. *)
Definition sub (a b : option Z) : option Z :=
  match a, b with
  | Some x, Some y => Some (x - y)
  | _, _ => None
  end.

(** *** [Array.prototype.sort]

    The sort is stable, and a comparator result that is NaN counts as 0.
    [insert] puts [x], which stood before every element of [l], in front of
    the first element it is not greater than. *)
Section Sort.
Context {A : Type} (comparefn : A -> A -> option Z).

Definition gt0 (v : option Z) : bool :=
  match v with Some z => 0 <? z | None => false end.

Fixpoint insert (x : A) (l : list A) : list A :=
  match l with
  | [] => [x]
  | y :: l' => if gt0 (comparefn x y) then y :: insert x l' else x :: l
  end.

Definition sort (l : list A) : list A := foldr insert [] l.
End Sort.

(** [Array.prototype.find]: the first element that satisfies [p]. *)
Definition find {A : Type} (p : A -> bool) (l : list A) : option A :=
  List.find p l.

(** *** [Intl.NumberFormat]

    [new Intl.NumberFormat(locale, options)] throws a RangeError on a
    currency code that is not well formed, and its [format] is total.  A
    formatter factory maps the currency code to [None] (the constructor
    throws) or to the [format] function of the formatter built. *)
Abbreviation number_format := (string -> option (number -> string)).


(** The formatter the components build:
    [new Intl.NumberFormat('en-GB', { style: 'currency', currency,
    minimumFractionDigits: 0, maximumFractionDigits: 0 })].

    A currency code is well formed when it is three ASCII letters; it is
    upper-cased.  The number is printed as an integer, a fraction rounded
    with halves away from zero, in the digits of the shortest decimal that
    reads back as the same double, grouped in thousands and preceded by
    the currency symbol; the minus sign of a negative number, negative
    zero included (sign display "auto"), comes first. *)
Definition is_alpha (c : ascii) : bool :=
  let n := N_of_ascii c in
  (((65 <=? n) && (n <=? 90)) || ((97 <=? n) && (n <=? 122)))%N.

Definition to_upper (c : ascii) : ascii :=
  let n := N_of_ascii c in
  if ((97 <=? n) && (n <=? 122))%N then ascii_of_N (n - 32) else c.

Fixpoint string_map (f : ascii -> ascii) (s : string) : string :=
  match s with
  | EmptyString => EmptyString
  | String c s' => String (f c) (string_map f s')
  end.

Fixpoint string_forallb (p : ascii -> bool) (s : string) : bool :=
  match s with
  | EmptyString => true
  | String c s' => p c && string_forallb p s'
  end.

Definition well_formed_currency (c : string) : bool :=
  (String.length c =? 3)%nat && string_forallb is_alpha c.

(** Excerpt of the en-GB currency symbols: the entries of GBP, EUR, USD
    and JPY.  A code with no symbol of its own is shown as the code and a
    no-break space, and that is what this excerpt gives for every other
    code; the locale has symbols for more currencies than these four, so
    outside them the text is right only for a currency that has none. *)
Definition currency_symbol (code : string) : string :=
  if String.eqb code "GBP" then "£"
  else if String.eqb code "EUR" then "€"
  else if String.eqb code "USD" then "US$"
  else if String.eqb code "JPY" then "JP¥"
  else code ++ String (ascii_of_N 194) (String (ascii_of_N 160) EmptyString).

(** The magnitude [m * 2^e] rounded to an integer, halves up. *)
Definition round_half_expand (m : N) (e : Z) : N :=
  if 0 <=? e then (m * 2 ^ Z.to_N e)%N
  else let d := (2 ^ Z.to_N (- e))%N in ((2 * m + d) / (2 * d))%N.

(** Commas between groups of three digits, counted from the right. *)
Fixpoint group_rev (digits : list ascii) (n : nat) : list ascii :=
  match digits with
  | [] => []
  | c :: rest =>
      match n, rest with
      | _, [] => [c]
      | O, _ => c :: ","%char :: group_rev rest 2
      | S n', _ => c :: group_rev rest n'
      end
  end.

Definition group_thousands (s : string) : string :=
  string_of_list_ascii
    (rev (group_rev (rev (list_ascii_of_string s)) 2)).

Definition decimal (n : N) : string :=
  NilZero.string_of_uint (N.to_uint n).

(** The odd part of a mantissa and the number of zero bits below it. *)
Fixpoint odd_part (p : positive) : positive * N :=
  match p with
  | xO p' => let '(q, t) := odd_part p' in (q, N.succ t)
  | _ => (p, 0%N)
  end.

Definition within (closed : bool) (lo x hi : N) : bool :=
  if closed then ((lo <=? x) && (x <=? hi))%N else ((lo <? x) && (x <? hi))%N.

(** The digits of a double are those of the shortest decimal that reads
    back as the same double, and of the closest one among the shortest.
    For an integer [v] whose neighbours lie beyond [lo] and [hi] (all three
    in quarters), that is the multiple of the highest power of ten that
    falls between them: the nearer of the two multiples around [v], the
    one with the even digit when they are as near. *)
Fixpoint shortest_from (k : nat) (closed : bool) (lo v hi : N) : N :=
  match k with
  | O => v
  | S k' =>
      let p := (10 ^ N.of_nat k)%N in
      let c1 := (v / p * p)%N in
      let c2 := (c1 + p)%N in
      let ok1 := within closed lo (4 * c1) hi in
      let ok2 := within closed lo (4 * c2) hi in
      if ok1 && ok2 then
        if (v - c1 <? c2 - v)%N then c1
        else if (c2 - v <? v - c1)%N then c2
        else if N.even (v / p) then c1 else c2
      else if ok1 then c1
      else if ok2 then c2
      else shortest_from k' closed lo v hi
  end.

(** The integer [q * 2^x], [q] odd, as printed.  Below 2^53 every integer
    is a double and the digits are exact.  From there on a double has a
    mantissa of 53 bits; half the distance to the next double is
    [2^(E-1)], and to the one before as well, unless the mantissa is a
    power of two, where it is [2^(E-2)]; a decimal halfway reads back as
    the double only when the mantissa is even.  A number whose odd part
    has more than 53 bits is no double; its exact digits are given. *)
Definition shortest_integer (q : positive) (x : N) : N :=
  let v := (Npos q * 2 ^ x)%N in
  let s := N.size (Npos q) in
  if ((v <? 2 ^ 53) || (53 <? s))%N then v
  else
    let E := (x + s - 53)%N in
    let up := (2 ^ (E + 1))%N in
    let down := if (q =? 1)%positive then (2 ^ E)%N else (2 ^ (E + 1))%N in
    shortest_from (String.length (decimal v)) (s <? 53)%N
      (4 * v - down)%N v (4 * v + up)%N.

(** The integer printed for the magnitude [m * 2^e] with no fraction
    digits.  A double that has a fraction is below 2^53, where rounding
    its exact value and rounding its shortest decimal give the same
    integer. *)
Definition integer_digits (m : N) (e : Z) : N :=
  match m with
  | N0 => 0%N
  | Npos p =>
      let '(q, t) := odd_part p in
      let x := e + Z.of_N t in
      if 0 <=? x then shortest_integer q (Z.to_N x)
      else round_half_expand (Npos q) x
  end.

Definition format_enGB (code : string) (x : number) : string :=
  match x with
  | NaN => currency_symbol code ++ "NaN"
  | Infinity neg =>
      (if neg then "-" else "") ++ currency_symbol code ++ "∞"
  | Finite neg m e =>
      (if neg then "-" else "") ++ currency_symbol code
      ++ group_thousands (decimal (integer_digits m e))
  end.

Definition NumberFormat_enGB : number_format := fun currency =>
  if well_formed_currency currency
  then Some (format_enGB (string_map to_upper currency))
  else None.

End JS.

(** ** [TemplateViewer.jsx] *)

Module TemplateViewer.

Record FieldMeta : Type := {
  label : string;
  category : string;
  isTotal : bool
}.

(** Field metadata for display: the entries of the [FIELD_META] object
    literal, in the order they are written. *)
Definition FIELD_META : list (string * FieldMeta) := [
  ("row_010", {| label := "Capital instruments eligible as CET1"; category := "CET1"; isTotal := false |});
  ("row_020", {| label := "Share premium (CET1)"; category := "CET1"; isTotal := false |});
  ("row_030", {| label := "Retained earnings"; category := "CET1"; isTotal := false |});
  ("row_040", {| label := "Accumulated OCI"; category := "CET1"; isTotal := false |});
  ("row_050", {| label := "Other reserves"; category := "CET1"; isTotal := false |});
  ("row_060", {| label := "Minority interests"; category := "CET1"; isTotal := false |});
  ("row_070", {| label := "Interim/year-end profits"; category := "CET1"; isTotal := false |});
  ("row_080", {| label := "(-) Goodwill & intangibles"; category := "CET1 Deductions"; isTotal := false |});
  ("row_090", {| label := "(-) Deferred tax assets"; category := "CET1 Deductions"; isTotal := false |});
  ("row_095", {| label := "(-) Provisions shortfall"; category := "CET1 Deductions"; isTotal := false |});
  ("row_100", {| label := "CET1 capital before adjustments"; category := "CET1"; isTotal := true |});
  ("row_200", {| label := "CET1 Capital"; category := "CET1"; isTotal := true |});
  ("row_300", {| label := "AT1 instruments"; category := "AT1"; isTotal := false |});
  ("row_310", {| label := "Share premium (AT1)"; category := "AT1"; isTotal := false |});
  ("row_320", {| label := "(-) AT1 deductions"; category := "AT1"; isTotal := false |});
  ("row_400", {| label := "Tier 1 Capital"; category := "Tier 1"; isTotal := true |});
  ("row_500", {| label := "Tier 2 instruments"; category := "Tier 2"; isTotal := false |});
  ("row_510", {| label := "Share premium (T2)"; category := "Tier 2"; isTotal := false |});
  ("row_520", {| label := "(-) Tier 2 deductions"; category := "Tier 2"; isTotal := false |});
  ("row_600", {| label := "Tier 2 Capital"; category := "Tier 2"; isTotal := true |});
  ("row_700", {| label := "TOTAL OWN FUNDS"; category := "Total"; isTotal := true |})
].

(** [Object.keys(FIELD_META)] *)
Definition row_ids : list string := map fst FIELD_META.

(** [formatCurrency(value, currency = 'GBP')]; [None] when the formatter's
    constructor throws. *)
Definition formatCurrency (NumberFormat : JS.number_format)
    (value : JS.amount) (currency : option string) : option string :=
  let currency := default "GBP" currency in
  match value with
  | JS.NullAmount | JS.NoAmount => Some "—"
  | JS.Amount value =>
      let absValue := JS.Math_abs value in
      let isNegative := JS.lt0 value in
      match NumberFormat currency with
      | None => None
      | Some format =>
          let formatted := format absValue in
          Some (if isNegative then "(" ++ formatted ++ ")" else formatted)
      end
  end.

(** The number a row key is ordered by:
    [parseInt(key.replace('row_', ''))]. *)
Definition row_number (key : string) : option Z :=
  JS.parseInt (JS.replace "row_" "" key).

(** The comparator given to [sort]. *)
Definition by_row_number (a b : string * FieldMeta) : option Z :=
  let numA := row_number (fst a) in
  let numB := row_number (fst b) in
  JS.sub numA numB.

(** The filter: [data[key] !== null && data[key] !== undefined]. *)
Definition has_value (data : JS.object) (entry : string * FieldMeta) : bool :=
  let '(key, _) := entry in
  negb (JS.is_null (JS.get data key)) && negb (JS.is_undefined (JS.get data key)).

(** [displayRows]: only the rows that have values, sorted by row number. *)
Definition displayRows (data : JS.object) : list (string * FieldMeta) :=
  JS.sort by_row_number (filter (has_value data) FIELD_META).

End TemplateViewer.

(** ** The records of a response *)

Module Response.

(** [confidence_indicators]: of a field entry, or of the summary entry. *)
Inductive confidence_indicators : Type :=
  | FieldConfidence (has_source_reference : bool) (source_relevance : string)
  | OverallConfidence (sources_used fields_populated : nat).

(** An entry of [audit_trail]; [V] is what [value] holds. *)
Record AuditEntry (V : Type) : Type := {
  field_row : string;
  field_name : string;
  value : V;
  currency : string;
  source_reference : string;
  reasoning : string;
  confidence : option confidence_indicators
}.

Arguments field_row {V} _.
Arguments field_name {V} _.
Arguments value {V} _.
Arguments currency {V} _.
Arguments source_reference {V} _.
Arguments reasoning {V} _.
Arguments confidence {V} _.

(** An entry of [validation_results]. *)
Record ValidationResult : Type := {
  rule_id : string;
  rule_name : string;
  passed : bool;
  severity : string;
  message : string;
  affected_fields : list string
}.

End Response.

(** ** [AuditTrail] *)

Module AuditTrail.
Import Response.

(** [formatCurrency(value, currency = 'GBP')]; [None] when the formatter's
    constructor throws. *)
Definition formatCurrency (NumberFormat : JS.number_format)
    (value : JS.amount) (currency : option string) : option string :=
  let currency := default "GBP" currency in
  match value with
  | JS.NullAmount | JS.NoAmount => Some "—"
  | JS.Amount value =>
      match NumberFormat currency with
      | None => None
      | Some format => Some (format value)
      end
  end.

Section Entries.
Context {V : Type}.

(** [e.field_row !== 'OVERALL'] and [e.field_row === 'OVERALL'] *)
Definition is_field (e : AuditEntry V) : bool :=
  negb (String.eqb (field_row e) "OVERALL").

Definition is_overall (e : AuditEntry V) : bool :=
  String.eqb (field_row e) "OVERALL".

(** Separate field entries from overall summary. *)
Definition fieldEntries (entries : list (AuditEntry V)) : list (AuditEntry V) :=
  filter is_field entries.

Definition overallEntry (entries : list (AuditEntry V)) : option (AuditEntry V) :=
  JS.find is_overall entries.

(** What the component shows: the empty state when [entries] is missing or
    empty, else the field cards followed by the summary, when there is
    one. *)
Inductive view : Type :=
  | EmptyState
  | Trail (cards : list (AuditEntry V)) (summary : option (AuditEntry V)).

Definition AuditTrail (entries : option (list (AuditEntry V))) : view :=
  match entries with
  | None | Some [] => EmptyState
  | Some entries => Trail (fieldEntries entries) (overallEntry entries)
  end.

End Entries.
End AuditTrail.

(** ** [ValidationPanel.jsx] *)

Module ValidationPanel.
Import Response.

(** [!r.passed && r.severity === 'ERROR'] *)
Definition is_error (r : ValidationResult) : bool :=
  negb (passed r) && String.eqb (severity r) "ERROR".

(** [!r.passed && r.severity === 'WARNING'] *)
Definition is_warning (r : ValidationResult) : bool :=
  negb (passed r) && String.eqb (severity r) "WARNING".

Definition errors (results : list ValidationResult) : list ValidationResult :=
  filter is_error results.

Definition warnings (results : list ValidationResult) : list ValidationResult :=
  filter is_warning results.

Definition passed_rules (results : list ValidationResult) : list ValidationResult :=
  filter passed results.

(** A titled group is rendered only when it has items. *)
Record group : Type := {
  title : string;
  items : list ValidationResult
}.

Definition section (title : string) (items : list ValidationResult) : list group :=
  match items with
  | [] => []
  | _ => [ {| title := title; items := items |} ]
  end.

(** What the component shows: the empty state when [results] is missing or
    empty, else the three counters and the groups that have items. *)
Inductive view : Type :=
  | EmptyState
  | Panel (n_errors n_warnings n_passed : nat) (groups : list group).

Definition ValidationPanel (results : option (list ValidationResult)) : view :=
  match results with
  | None | Some [] => EmptyState
  | Some results =>
      let errors := errors results in
      let warnings := warnings results in
      let passed := passed_rules results in
      Panel (length errors) (length warnings) (length passed)
        (section "Blocking Errors" errors
         ++ section "Warnings" warnings
         ++ section "Rules Passed" passed)
  end.

(** The items the panel shows under the title [t]. *)
Definition shown_under (t : string) (v : view) : list ValidationResult :=
  match v with
  | EmptyState => []
  | Panel _ _ _ groups =>
      concat (map items (filter (fun g => String.eqb (title g) t) groups))
  end.

End ValidationPanel.

(** ** [QueryInterface] *)

Module QueryInterface.

(** The component's state: the two text areas. *)
Record state : Type := {
  question : JS.ustring;
  scenario : JS.ustring
}.

(** [handleSubmit]: after [e.preventDefault()], [onSubmit(question,
    scenario)] is called when [question.trim()] is truthy.  The result is
    what the call returned, [None] when it was not made. *)
Definition handleSubmit {R : Type} (onSubmit : JS.ustring -> JS.ustring -> R)
    (s : state) : option R :=
  if JS.truthy (JS.trim (question s))
  then Some (onSubmit (question s) (scenario s))
  else None.

(** The submit button's [disabled]: [loading || !question.trim()]. *)
Definition disabled (loading : bool) (s : state) : bool :=
  loading || negb (JS.truthy (JS.trim (question s))).

(** [loadSample] and the two [onChange] handlers. *)
Definition setQuestion (q : JS.ustring) (s : state) : state :=
  {| question := q; scenario := scenario s |}.

Definition setScenario (sc : JS.ustring) (s : state) : state :=
  {| question := question s; scenario := sc |}.

End QueryInterface.

(** ** [App] *)

Module App.

(** The value handed to [JSON.stringify]: strings and objects are all the
    request needs. *)
#[local] Set Warnings "-register-all".
Inductive json : Type :=
  | JString (s : JS.ustring)
  | JObject (fields : list (string * json)).

Record Request (B : Type) : Type := {
  url : string;
  method : string;
  headers : list (string * string);
  body : B
}.

Arguments url {B} _.
Arguments method {B} _.
Arguments headers {B} _.
Arguments body {B} _.

(** How a [fetch] ends: it rejects, or it resolves to a response whose
    [json()] in turn rejects or yields the data. *)
Inductive fetched (D : Type) : Type :=
  | Rejected (message : string)
  | Resolved (ok : bool) (statusText : string) (json : string + D).

Arguments Rejected {D} _.
Arguments Resolved {D} _ _ _.

Record state (D : Type) : Type := {
  loading : bool;
  result : option D;
  error : option string;
  activeTab : string
}.

Arguments loading {D} _.
Arguments result {D} _.
Arguments error {D} _.
Arguments activeTab {D} _.

Section Handlers.
Context {B D : Type}.
(** [JSON.stringify] and [fetch], the two platform calls. *)
Context (JSON_stringify : json -> B).
Context (fetch : Request B -> fetched D).

Definition setLoading (b : bool) (s : state D) : state D :=
  {| loading := b; result := result s; error := error s; activeTab := activeTab s |}.

Definition setResult (d : D) (s : state D) : state D :=
  {| loading := loading s; result := Some d; error := error s; activeTab := activeTab s |}.

Definition setError (e : option string) (s : state D) : state D :=
  {| loading := loading s; result := result s; error := e; activeTab := activeTab s |}.

Definition setActiveTab (t : string) (s : state D) : state D :=
  {| loading := loading s; result := result s; error := error s; activeTab := t |}.

(** The object literal [{ question, scenario, template_type: 'C01' }]. *)
Definition query_object (question scenario : JS.ustring) : json :=
  JObject [ ("question", JString question);
            ("scenario", JString scenario);
            ("template_type", JString (JS.lit "C01")) ].

(** The request [fetch] is called with. *)
Definition query_request (question scenario : JS.ustring) : Request B :=
  {| url := "/api/query";
     method := "POST";
     headers := [("Content-Type", "application/json")];
     body := JSON_stringify (query_object question scenario) |}.

(** [handleQuery(question, scenario)], run from the call to the end with no
    other event handled in between: the requests sent and the state the
    component is left in.  The handler is asynchronous; its two halves,
    before and after the answer, are [AppView.begin] and
    [AppView.settle]. *)
Definition handleQuery (question scenario : JS.ustring) (s : state D)
    : list (Request B) * state D :=
  let s := setLoading true s in
  let s := setError None s in
  let request := query_request question scenario in
  let s :=
    match fetch request with
    | Rejected message => setError (Some message) s
    | Resolved false statusText _ => setError (Some ("Error: " ++ statusText)) s
    | Resolved true _ (inl message) => setError (Some message) s
    | Resolved true _ (inr data) => setActiveTab "template" (setResult data s)
    end in
  ([request], setLoading false s).

(** [<QueryInterface onSubmit={handleQuery} loading={loading} />]: a
    submission of the form. *)
Definition submit (form : QueryInterface.state) (s : state D)
    : option (list (Request B) * state D) :=
  QueryInterface.handleSubmit (fun question scenario => handleQuery question scenario s) form.

End Handlers.
End App.

(** ** Schema Registry *)

Module Schema.

Inductive Category : Type :=
  | CET1 | CET1_Deductions | AT1 | Tier1 | Tier2 | Total.

Inductive Kind : Type := BASE | DERIVED.

Record SchemaEntry : Type := {
  row_id : string;
  category : Category;
  kind : Kind
}.

#[global] Instance Category_eq_dec : EqDecision Category.
Proof. solve_decision. Defined.

#[global] Instance Kind_eq_dec : EqDecision Kind.
Proof. solve_decision. Defined.

Definition category_of (name : string) : Category :=
  if String.eqb name "CET1" then CET1
  else if String.eqb name "CET1 Deductions" then CET1_Deductions
  else if String.eqb name "AT1" then AT1
  else if String.eqb name "Tier 1" then Tier1
  else if String.eqb name "Tier 2" then Tier2
  else Total.

(** Modelled from the spec: the Schema Registry is not among the sources.
    It is "the immutable definition of the canonical rows, their category,
    and whether each is a base input or a derived total"; the rows, their
    categories and which of them are totals are read off [FIELD_META], the
    one table of rows the sources hold. *)
Definition registry : list SchemaEntry :=
  map (fun e : string * TemplateViewer.FieldMeta =>
         {| row_id := fst e;
            category := category_of (TemplateViewer.category (snd e));
            kind := if TemplateViewer.isTotal (snd e) then DERIVED else BASE |})
      TemplateViewer.FIELD_META.

Definition lookup_row (r : string) : option SchemaEntry :=
  List.find (fun e => String.eqb (row_id e) r) registry.

Definition is_known (r : string) : bool :=
  match lookup_row r with Some _ => true | None => false end.

Definition is_derived (r : string) : bool :=
  match lookup_row r with
  | Some e => bool_decide (kind e = DERIVED)
  | None => false
  end.

(** The BASE rows of a category, in canonical order. *)
Definition base_rows (c : Category) : list string :=
  map row_id
    (filter (fun e => bool_decide (kind e = BASE) && bool_decide (category e = c))
       registry).

(** The derived totals, by the names the formulas give them. *)
Definition CET1_before_adjustments : string := "row_100".
Definition CET1_total : string := "row_200".
Definition Tier1_total : string := "row_400".
Definition Tier2_total : string := "row_600".
Definition Total_own_funds : string := "row_700".

(** The mandatory base rows. *)
Definition CET1_instruments : string := "row_010".
Definition Retained_earnings : string := "row_030".

(** The rows a derived total is computed from. *)
Definition dependencies (r : string) : list string :=
  if String.eqb r CET1_before_adjustments then base_rows CET1 ++ base_rows CET1_Deductions
  else if String.eqb r CET1_total then [CET1_before_adjustments]
  else if String.eqb r Tier1_total then CET1_total :: base_rows AT1
  else if String.eqb r Tier2_total then base_rows Tier2
  else if String.eqb r Total_own_funds then [Tier1_total; Tier2_total]
  else [].

End Schema.

(** ** The template population, validation and provenance engine *)

Module Core.
Import Schema.

Local Open Scope Qc_scope.

(** *** Data model *)

(** Modelled from the spec: the FieldCandidate the extraction collaborator
    produces.  [value] is a signed decimal, [None] when what was extracted
    is not a number; [relevance_score] lies in 0-1, [None] when absent;
    [currency] may be empty. *)
Record FieldCandidate : Type := {
  row_id : string;
  value : option Qc;
  source_reference : string;
  reasoning : string;
  relevance_score : option Qc;
  currency : string
}.

Inductive Malformed : Type :=
  | UnknownRow
  | NonNumericValue
  | CurrencyMismatch.

(** A candidate that was rejected, and why. *)
Record MalformedCandidate : Type := {
  why : Malformed;
  rejected : FieldCandidate
}.

(** Modelled from the spec: the TemplateRecord, a "mapping from row_id to
    nullable signed decimal"; a row that is not in [rows] is null. *)
Record TemplateRecord : Type := {
  template_type : string;
  record_currency : string;
  rows : gmap string Qc
}.

(** *** Template Populator *)

(** A sum in which "a null dependency contributes zero", null "only if
    every one of its dependencies is null". *)
Definition add_nullable (a b : option Qc) : option Qc :=
  match a, b with
  | None, None => None
  | _, _ => Some (default 0 a + default 0 b)
  end.

Definition sum_nullable (vs : list (option Qc)) : option Qc :=
  foldr add_nullable None vs.

Definition sum_rows (m : gmap string Qc) (rs : list string) : option Qc :=
  sum_nullable (map (fun r => m !! r) rs).

(** Overwrite a row with a nullable value. *)
Definition set_row (r : string) (v : option Qc) (m : gmap string Qc) : gmap string Qc :=
  match v with
  | Some x => <[r := x]> m
  | None => delete r m
  end.

(** Unknown rows and values that are not numbers are rejected. *)
Definition malformed (c : FieldCandidate) : option Malformed :=
  if negb (is_known (row_id c)) then Some UnknownRow
  else match value c with
       | None => Some NonNumericValue
       | Some _ => None
       end.

(** The candidates for BASE rows: a candidate for a derived row is
    "silently ignored". *)
Definition for_base_row (c : FieldCandidate) : bool :=
  negb (is_derived (row_id c)).

Definition well_formed (cs : list FieldCandidate) : list FieldCandidate :=
  filter (fun c => bool_decide (malformed c = None)) cs.

Definition base_candidates (cs : list FieldCandidate) : list FieldCandidate :=
  filter for_base_row (well_formed cs).

(** "The first non-empty value wins". *)
Definition resolve_currency (cs : list FieldCandidate) : string :=
  match List.find (fun c => negb (String.eqb (currency c) "")) cs with
  | Some c => currency c
  | None => ""
  end.

Definition agrees (cur : string) (c : FieldCandidate) : bool :=
  String.eqb (currency c) "" || String.eqb (currency c) cur.

(** The candidates that take part in the resolution of duplicates. *)
Definition accepted (cs : list FieldCandidate) : list FieldCandidate :=
  let base := base_candidates cs in
  filter (agrees (resolve_currency base)) base.

(** The notes recorded: one per rejected candidate, in input order. *)
Definition notes (cs : list FieldCandidate) : list MalformedCandidate :=
  let cur := resolve_currency (base_candidates cs) in
  omap (fun c =>
          match malformed c with
          | Some w => Some {| why := w; rejected := c |}
          | None =>
              if for_base_row c && negb (agrees cur c)
              then Some {| why := CurrencyMismatch; rejected := c |}
              else None
          end) cs.

(** An absent score ranks as zero. *)
Definition score (c : FieldCandidate) : Qc := default 0 (relevance_score c).

(** "The candidate with the higher relevance_score wins; ties broken by
    input order (first wins)": the best so far is replaced only by a
    strictly higher score. *)
Definition challenge (r : string) (best : option FieldCandidate) (c : FieldCandidate)
    : option FieldCandidate :=
  if String.eqb (row_id c) r then
    match best with
    | None => Some c
    | Some b => if bool_decide (score b < score c) then Some c else Some b
    end
  else best.

Definition winner (cs : list FieldCandidate) (r : string) : option FieldCandidate :=
  fold_left (challenge r) cs None.

(** The winning candidates, one per BASE row that has any, in canonical
    row order; [choice] is the resolution of duplicates. *)
Definition winners_by (choice : string -> option FieldCandidate) : list FieldCandidate :=
  omap (fun e => if bool_decide (kind e = BASE) then choice (Schema.row_id e) else None)
       registry.

Definition winners (cs : list FieldCandidate) : list FieldCandidate :=
  winners_by (winner (accepted cs)).

(** BASE rows take the value of their winning candidate; "BASE rows with
    no candidate remain null". *)
Definition fill_base (ws : list FieldCandidate) : gmap string Qc :=
  foldr (fun c m => set_row (row_id c) (value c) m) ∅ ws.

(** The derived totals, each overwritten by its formula, in dependency
    order. *)
Definition derive (m : gmap string Qc) : gmap string Qc :=
  let m := set_row CET1_before_adjustments
             (add_nullable (sum_rows m (base_rows CET1))
                           (sum_rows m (base_rows CET1_Deductions))) m in
  let m := set_row CET1_total (m !! CET1_before_adjustments) m in
  let AT1_total := sum_rows m (base_rows AT1) in
  let m := set_row Tier1_total (add_nullable (m !! CET1_total) AT1_total) m in
  let m := set_row Tier2_total (sum_rows m (base_rows Tier2)) m in
  set_row Total_own_funds (add_nullable (m !! Tier1_total) (m !! Tier2_total)) m.

(** Modelled from the spec: the Template Populator is not among the
    sources.  It "merges extraction candidates into a canonical numeric
    record and recomputes every derived total". *)
Definition populate_by (choice : string -> option FieldCandidate)
    (cs : list FieldCandidate) : TemplateRecord :=
  {| template_type := "C01";
     record_currency := resolve_currency (base_candidates cs);
     rows := derive (fill_base (winners_by choice)) |}.

Definition populate (cs : list FieldCandidate) : TemplateRecord :=
  populate_by (winner (accepted cs)) cs.

(** The resolution of duplicates in the spec's words: [c] wins row [r]
    when it is a candidate for [r], no candidate for [r] has a higher
    score, and every earlier candidate for [r] has a lower one. *)
Definition wins (cs : list FieldCandidate) (r : string) (c : FieldCandidate) : Prop :=
  exists i : nat,
    cs !! i = Some c /\ row_id c = r
    /\ forall (j : nat) (c' : FieldCandidate),
         cs !! j = Some c' -> row_id c' = r ->
         score c' <= score c /\ ((j < i)%nat -> score c' < score c).

(** A resolution gives every row its winner, and none to a row that has
    no candidate. *)
Definition resolves (cs : list FieldCandidate)
    (choice : string -> option FieldCandidate) : Prop :=
  forall r : string,
    match choice r with
    | Some c => wins (accepted cs) r c
    | None => forall c, c ∈ accepted cs -> row_id c <> r
    end.

(** *** Validation Engine *)

Inductive Severity : Type := ERROR | WARNING.

Definition severity_name (s : Severity) : string :=
  match s with ERROR => "ERROR" | WARNING => "WARNING" end.

(** Modelled from the spec: a ValidationRule, "a pure predicate over
    TemplateRecord" with its severity and "the list of rows it
    inspects". *)
Record ValidationRule : Type := {
  rule_id : string;
  severity : Severity;
  predicate : TemplateRecord -> bool;
  inspects : list string
}.

(** The fixed tolerance, 0.01. *)
Definition epsilon : Qc := Q2Qc (1 # 100).

Definition within_epsilon (x y : Qc) : bool :=
  bool_decide (x - y <= epsilon) && bool_decide (y - x <= epsilon).

(** The number a nullable row stands for in a comparison: null is zero. *)
Definition num (v : option Qc) : Qc := default 0 v.

Definition non_null (t : TemplateRecord) (r : string) : bool :=
  bool_decide (is_Some (rows t !! r)).

Definition mandatory_rows : list string :=
  [CET1_instruments; Retained_earnings; CET1_total; Total_own_funds].

Definition R_REQUIRED : ValidationRule :=
  {| rule_id := "R-REQUIRED";
     severity := ERROR;
     predicate := fun t => forallb (non_null t) mandatory_rows;
     inspects := mandatory_rows |}.

Definition R_CET1_CONSISTENCY : ValidationRule :=
  {| rule_id := "R-CET1-CONSISTENCY";
     severity := ERROR;
     predicate := fun t =>
       within_epsilon (num (rows t !! CET1_total))
         (num (add_nullable (sum_rows (rows t) (base_rows CET1))
                            (sum_rows (rows t) (base_rows CET1_Deductions))));
     inspects := CET1_total :: base_rows CET1 ++ base_rows CET1_Deductions |}.

Definition R_TOTAL_CONSISTENCY : ValidationRule :=
  {| rule_id := "R-TOTAL-CONSISTENCY";
     severity := ERROR;
     predicate := fun t =>
       within_epsilon (num (rows t !! Total_own_funds))
         (num (rows t !! Tier1_total) + num (rows t !! Tier2_total));
     inspects := [Total_own_funds; Tier1_total; Tier2_total] |}.

Definition R_DEDUCTION_SIGN : ValidationRule :=
  {| rule_id := "R-DEDUCTION-SIGN";
     severity := WARNING;
     predicate := fun t =>
       forallb (fun r => bool_decide (num (rows t !! r) <= 0))
               (base_rows CET1_Deductions);
     inspects := base_rows CET1_Deductions |}.

Definition R_NONNEGATIVE_BASE : ValidationRule :=
  {| rule_id := "R-NONNEGATIVE-BASE";
     severity := WARNING;
     predicate := fun t =>
       forallb (fun r => bool_decide (0 <= num (rows t !! r)))
               [CET1_instruments; Retained_earnings];
     inspects := [CET1_instruments; Retained_earnings] |}.

(** The rules, "evaluated in fixed declaration order". *)
Definition rules : list ValidationRule :=
  [R_REQUIRED; R_CET1_CONSISTENCY; R_TOTAL_CONSISTENCY; R_DEDUCTION_SIGN;
   R_NONNEGATIVE_BASE].

(** The texts the engine writes.  The spec fixes what they refer to and
    not their wording, so the wording is a parameter of the engine. *)
Record Wording : Type := {
  rule_name_of : string -> string;
  message_of : string -> bool -> string;
  field_name_of : string -> string;
  derived_reasoning : string -> list string -> string;
  overall_reasoning :
    TemplateRecord -> list Response.ValidationResult -> string
}.

(** "A query is submission-ready iff no ERROR-severity result has
    passed = false": the spec's words, to be set next to the panel's
    [errors]. *)
Definition submission_ready (results : list Response.ValidationResult) : bool :=
  forallb (fun r => negb (String.eqb (Response.severity r) "ERROR" && negb (Response.passed r)))
          results.

Section Engine.
Context (w : Wording).

Definition evaluate (t : TemplateRecord) (rule : ValidationRule)
    : Response.ValidationResult :=
  let ok := predicate rule t in
  {| Response.rule_id := rule_id rule;
     Response.rule_name := rule_name_of w (rule_id rule);
     Response.passed := ok;
     Response.severity := severity_name (severity rule);
     Response.message := message_of w (rule_id rule) ok;
     Response.affected_fields := inspects rule |}.

(** Modelled from the spec: the Validation Engine is not among the
    sources.  "One result per rule", with "no short-circuiting". *)
Definition validate (t : TemplateRecord) : list Response.ValidationResult :=
  map (evaluate t) rules.

(** *** Confidence Scorer *)

(** Modelled from the spec: ">=0.8 -> High, >=0.5 -> Medium, >0 -> Low,
    absent/zero -> N/A". *)
Definition source_relevance (s : option Qc) : string :=
  match s with
  | None => "N/A"
  | Some s =>
      if bool_decide (Q2Qc (8 # 10) <= s) then "High"
      else if bool_decide (Q2Qc (5 # 10) <= s) then "Medium"
      else if bool_decide (0 < s) then "Low"
      else "N/A"
  end.

(** "True iff source_reference is non-empty after trimming". *)
Definition has_source_reference (src : string) : bool :=
  negb (JS.string_forallb JS.is_ascii_space src).

(** *** Audit Trail Builder *)

Abbreviation AuditEntry := (Response.AuditEntry (option Qc)).

Fixpoint join (sep : string) (l : list string) : string :=
  match l with
  | [] => ""
  | [x] => x
  | x :: l' => x ++ sep ++ join sep l'
  end.

Definition base_entry (t : TemplateRecord) (ws : list FieldCandidate)
    (r : string) (v : Qc) : AuditEntry :=
  let c := List.find (fun c => String.eqb (row_id c) r) ws in
  let src := from_option source_reference "" c in
  {| Response.field_row := r;
     Response.field_name := field_name_of w r;
     Response.value := Some v;
     Response.currency := record_currency t;
     Response.source_reference := src;
     Response.reasoning := from_option reasoning "" c;
     Response.confidence :=
       Some (Response.FieldConfidence (has_source_reference src)
               (source_relevance (c ≫= relevance_score))) |}.

Definition derived_entry (t : TemplateRecord) (r : string) (v : Qc) : AuditEntry :=
  {| Response.field_row := r;
     Response.field_name := field_name_of w r;
     Response.value := Some v;
     Response.currency := record_currency t;
     Response.source_reference := "Derived: " ++ join "," (dependencies r);
     Response.reasoning := derived_reasoning w r (dependencies r);
     Response.confidence := Some (Response.FieldConfidence false "N/A") |}.

(** One entry per non-null row, in canonical row order. *)
Definition row_entry (t : TemplateRecord) (ws : list FieldCandidate)
    (e : SchemaEntry) : option AuditEntry :=
  match rows t !! Schema.row_id e with
  | None => None
  | Some v =>
      Some (match kind e with
            | BASE => base_entry t ws (Schema.row_id e) v
            | DERIVED => derived_entry t (Schema.row_id e) v
            end)
  end.

Definition row_entries (t : TemplateRecord) (ws : list FieldCandidate)
    : list AuditEntry :=
  omap (row_entry t ws) registry.

(** The rows of the record that are not null, in canonical order. *)
Definition populated_rows (t : TemplateRecord) : list string :=
  filter (fun r => bool_decide (is_Some (rows t !! r))) (map Schema.row_id registry).

(** "Count of distinct non-empty source_reference values across
    non-derived entries". *)
Definition sources_used (es : list AuditEntry) : nat :=
  length
    (remove_dups
       (filter (fun src => bool_decide (src <> ""))
          (map Response.source_reference
             (filter (fun e => negb (is_derived (Response.field_row e))) es)))).

Definition overall_entry (t : TemplateRecord)
    (results : list Response.ValidationResult) (es : list AuditEntry) : AuditEntry :=
  {| Response.field_row := "OVERALL";
     Response.field_name := "";
     Response.value := None;
     Response.currency := "";
     Response.source_reference := "";
     Response.reasoning :=
       overall_reasoning w t
         (filter (fun r => negb (Response.passed r)
                           && String.eqb (Response.severity r) "ERROR") results);
     Response.confidence :=
       Some (Response.OverallConfidence (sources_used es)
               (length (populated_rows t))) |}.

(** Modelled from the spec: the Audit Trail Builder is not among the
    sources.  "For every populated row, emits a provenance entry; appends
    one aggregate summary entry." *)
Definition build_audit_trail (t : TemplateRecord) (ws : list FieldCandidate)
    (results : list Response.ValidationResult) : list AuditEntry :=
  let es := row_entries t ws in
  es ++ [overall_entry t results es].

(** *** The pipeline *)

Record Output : Type := {
  template_data : TemplateRecord;
  validation_results : list Response.ValidationResult;
  audit_trail : list AuditEntry;
  malformed_candidates : list MalformedCandidate
}.

(** Modelled from the spec: one synchronous pipeline invocation per query,
    Populator, then Validation Engine, then Audit Trail Builder. *)
Definition pipeline_by (choice : string -> option FieldCandidate)
    (cs : list FieldCandidate) : Output :=
  let t := populate_by choice cs in
  let results := validate t in
  {| template_data := t;
     validation_results := results;
     audit_trail := build_audit_trail t (winners_by choice) results;
     malformed_candidates := notes cs |}.

Definition pipeline (cs : list FieldCandidate) : Output :=
  pipeline_by (winner (accepted cs)) cs.

End Engine.
End Core.

(** ** [TemplateViewer]: the table *)

Module TemplateTable.
Import TemplateViewer.

(** Category colors *)
Definition CATEGORY_COLORS : list (string * string) := [
  ("CET1", "#3b82f6");
  ("CET1 Deductions", "#ef4444");
  ("AT1", "#8b5cf6");
  ("Tier 1", "#10b981");
  ("Tier 2", "#f59e0b");
  ("Total", "#10b981")
].

(** [CATEGORY_COLORS[category]]; [None] is [undefined]. *)
Definition color_of (category : string) : option string :=
  snd <$> List.find (fun kv => String.eqb (fst kv) category) CATEGORY_COLORS.

(** [data.currency || 'GBP'].  The response declares [currency] a string;
    a truthy value of another type is outside it, [None]. *)
Definition currency_of (data : JS.object) : option string :=
  match JS.get data "currency" with
  | JS.Str s => Some (if String.eqb s "" then "GBP" else s)
  | JS.Undefined | JS.Null | JS.Bool false => Some "GBP"
  | JS.Num JS.NaN => Some "GBP"
  | JS.Num (JS.Finite _ m _) => if (m =? 0)%N then Some "GBP" else None
  | JS.Num (JS.Infinity _) | JS.Bool true => None
  end.

(** A row of the table body. *)
Record Row : Type := {
  key : string;
  className : string;
  rowNum : string;
  marker : bool;
  label : string;
  category : string;
  color : option string;
  value_class : string;
  amount : option string
}.

(** The body of [displayRows.map(([key, meta]) => ...)] for a value that is
    a number; [amount] is [None] when [formatCurrency] throws. *)
Definition row (NumberFormat : JS.number_format) (currency : string)
    (entry : string * FieldMeta) (value : JS.number) : Row :=
  let '(key, meta) := entry in
  let rowNum := JS.replace "row_" "" key in
  let isNegative := JS.lt0 value in
  {| key := key;
     className := if isTotal meta then "row-total" else "";
     rowNum := rowNum;
     marker := isTotal meta;
     label := TemplateViewer.label meta;
     category := TemplateViewer.category meta;
     color := color_of (TemplateViewer.category meta);
     value_class := "row-value " ++ (if isNegative then "negative" else "positive");
     amount := formatCurrency NumberFormat (JS.Amount value) (Some currency) |}.

(** The number a displayed cell holds; the response declares the rows
    [number | null], so a displayed value of another type is outside it. *)
Definition cell (data : JS.object) (entry : string * FieldMeta) : option JS.number :=
  match JS.get data (fst entry) with
  | JS.Num x => Some x
  | _ => None
  end.

(** The rows [displayRows.map] builds, each evaluated on its own; [None]
    when a displayed value is outside the response's declared types. *)
Definition table_rows (NumberFormat : JS.number_format) (currency : string)
    (data : JS.object) : option (list Row) :=
  mapM (fun entry => row NumberFormat currency entry <$> cell data entry)
       (displayRows data).

(** What the component renders: nothing when [data] is missing, else the
    currency of the header, the rows, and whether the note "No data
    populated in template" is shown. *)
Inductive view : Type :=
  | Nothing
  | Table (currency : string) (rows : list Row) (empty_note : bool).

(** How a render ends: with a view, or with the [RangeError] that
    [formatCurrency] lets through.  The error leaves [displayRows.map] and
    the component; nothing of the table is rendered. *)
Inductive rendering : Type :=
  | Rendered (v : view)
  | RangeError.

(** Every row was evaluated without an error. *)
Definition all_formatted (rows : list Row) : bool :=
  forallb (fun r => bool_decide (is_Some (amount r))) rows.

(** [TemplateViewer({ data })]; [None] when the data is outside the
    response's declared types. *)
Definition TemplateViewer (NumberFormat : JS.number_format)
    (data : option JS.object) : option rendering :=
  match data with
  | None => Some (Rendered Nothing)
  | Some data =>
      currency ← currency_of data;
      rows ← table_rows NumberFormat currency data;
      Some (if all_formatted rows
            then Rendered (Table currency rows (length (displayRows data) =? 0)%nat)
            else RangeError)
  end.

End TemplateTable.

(** ** [App]: what is on screen *)

Module AppView.
Import App.

(** The initial [useState] values. *)
Definition initial {D : Type} : state D :=
  {| loading := false; result := None; error := None; activeTab := "template" |}.

(** The content of the results card: the empty state, or the tab buttons
    over the component of the active tab. *)
Inductive panel (D : Type) : Type :=
  | NoResults
  | TemplateTab (d : D)
  | ValidationTab (d : D)
  | AuditTab (d : D)
  | NoTab.

Arguments NoResults {D}.
Arguments TemplateTab {D} _.
Arguments ValidationTab {D} _.
Arguments AuditTab {D} _.
Arguments NoTab {D}.

(** [error && <card>]: the message of the error card, when one is shown.
    The empty string is falsy. *)
Definition error_card {D : Type} (s : state D) : option string :=
  match error s with
  | Some m => if String.eqb m "" then None else Some m
  | None => None
  end.

(** The three tab buttons. *)
Definition tabs : list string := ["template"; "validation"; "audit"].

Section Screen.
Context {D : Type}.
(** Whether a parsed body is truthy: [null], [false], [0] and the empty
    string are not, an object is. *)
Context (ToBoolean : D -> bool).

(** [!result]: there is no result yet, or the result is falsy. *)
Definition no_result (s : state D) : bool :=
  match result s with
  | Some d => negb (ToBoolean d)
  | None => true
  end.

(** [!result ? <empty state> : <tabs and the panel of the active tab>] *)
Definition visible (s : state D) : panel D :=
  match result s with
  | None => NoResults
  | Some d =>
      if negb (ToBoolean d) then NoResults
      else if String.eqb (activeTab s) "template" then TemplateTab d
      else if String.eqb (activeTab s) "validation" then ValidationTab d
      else if String.eqb (activeTab s) "audit" then AuditTab d
      else NoTab
  end.

(** [handleQuery] is asynchronous.  Up to its first [await] it sets
    [loading] and clears the error; the component is rendered in that
    state, and handles other events, until the request is answered. *)
Definition begin (s : state D) : state D :=
  setError None (setLoading true s).

(** [handleQuery] from the answer on: the rest of [try], or [catch], and
    [finally].  The setters act on the state the component is in when the
    answer arrives. *)
Definition settle (answer : fetched D) (s : state D) : state D :=
  setLoading false
    match answer with
    | Rejected message => setError (Some message) s
    | Resolved false statusText _ => setError (Some ("Error: " ++ statusText)) s
    | Resolved true _ (inl message) => setError (Some message) s
    | Resolved true _ (inr data) => setActiveTab "template" (setResult data s)
    end.

(** The page: the state of [App], the state of the form, and the number of
    requests sent and not answered yet. *)
Record page : Type := {
  app : state D;
  form : QueryInterface.state;
  in_flight : nat
}.

Definition start : page :=
  {| app := initial;
     form := {| QueryInterface.question := []; QueryInterface.scenario := [] |};
     in_flight := 0 |}.

(** What happens to the page: the user edits a text area (or loads an
    example), presses the submit button, or clicks a tab button; the
    network answers a request that is in flight. *)
Inductive event : Type :=
  | Edit_question (q : JS.ustring)
  | Edit_scenario (sc : JS.ustring)
  | Press_submit
  | Answer (answer : fetched D)
  | Click (tab : string).

(** The page after an event.  The form has two text areas and no other
    control that submits it, so it is submitted by its submit button, and
    a disabled button submits nothing.  The tab buttons exist only while
    there is a truthy result. *)
Definition step (p : page) (e : event) : page :=
  match e with
  | Edit_question q =>
      {| app := app p; form := QueryInterface.setQuestion q (form p);
         in_flight := in_flight p |}
  | Edit_scenario sc =>
      {| app := app p; form := QueryInterface.setScenario sc (form p);
         in_flight := in_flight p |}
  | Press_submit =>
      if QueryInterface.disabled (loading (app p)) (form p) then p
      else
        match QueryInterface.handleSubmit (fun _ _ => begin (app p)) (form p) with
        | Some s => {| app := s; form := form p; in_flight := S (in_flight p) |}
        | None => p
        end
  | Answer answer =>
      match in_flight p with
      | O => p
      | S n => {| app := settle answer (app p); form := form p; in_flight := n |}
      end
  | Click tab =>
      if negb (no_result (app p)) && bool_decide (tab ∈ tabs)
      then {| app := setActiveTab tab (app p); form := form p;
              in_flight := in_flight p |}
      else p
  end.

Definition run (events : list event) : page :=
  fold_left step events start.

End Screen.

Arguments Edit_question {D} _.
Arguments Edit_scenario {D} _.
Arguments Press_submit {D}.
Arguments Answer {D} _.
Arguments Click {D} _.

End AppView.

(** ** Vocabulary of the statements *)

Local Open Scope list_scope.

(** [x] may stay in front of [y]: the comparator does not put it after. *)
Definition in_order {A : Type} (comparefn : A -> A -> option Z) (x y : A) : Prop :=
  JS.gt0 (comparefn x y) = false.

(** Strictly ascending row numbers. *)
Definition row_lt (a b : string * TemplateViewer.FieldMeta) : Prop :=
  match TemplateViewer.row_number (fst a), TemplateViewer.row_number (fst b) with
  | Some x, Some y => x < y
  | _, _ => False
  end.

#[global] Instance row_lt_dec a b : Decision (row_lt a b).
Proof.
  unfold row_lt.
  destruct (TemplateViewer.row_number a.1), (TemplateViewer.row_number b.1); apply _.
Defined.

(** A code unit that is not white space. *)
Definition not_space (c : N) : bool := negb (JS.is_white_space c).

(** The plain sum of a list of numbers. *)
Definition total (l : list Qc) : Qc := foldr Qcplus 0%Qc l.

(** The rows the formulas overwrite. *)
Definition derived_rows : list string :=
  [Schema.CET1_before_adjustments; Schema.CET1_total; Schema.Tier1_total;
   Schema.Tier2_total; Schema.Total_own_funds].

(** What [derive] leaves in each derived row, in terms of the base rows. *)
Definition CET1_of (m : gmap string Qc) : option Qc :=
  Core.add_nullable (Core.sum_rows m (Schema.base_rows Schema.CET1))
    (Core.sum_rows m (Schema.base_rows Schema.CET1_Deductions)).

Definition Tier1_of (m : gmap string Qc) : option Qc :=
  Core.add_nullable (CET1_of m) (Core.sum_rows m (Schema.base_rows Schema.AT1)).

Definition Tier2_of (m : gmap string Qc) : option Qc :=
  Core.sum_rows m (Schema.base_rows Schema.Tier2).

(** Sample inputs. *)
Definition sample_data : JS.object :=
  [ ("row_700", JS.Num (JS.of_Z 1350)); ("currency", JS.Str "GBP");
    ("row_010", JS.Num (JS.of_Z 0)); ("row_020", JS.Null) ].

Definition blank_form : QueryInterface.state :=
  {| QueryInterface.question := JS.lit "  ";
     QueryInterface.scenario := JS.lit "A UK bank" |}.

Definition sample_results : list Response.ValidationResult :=
  [ {| Response.rule_id := "R-REQUIRED"; Response.rule_name := "Required";
       Response.passed := true; Response.severity := "ERROR";
       Response.message := ""; Response.affected_fields := [] |};
    {| Response.rule_id := "R-DEDUCTION-SIGN"; Response.rule_name := "Sign";
       Response.passed := false; Response.severity := "WARNING";
       Response.message := ""; Response.affected_fields := ["row_080"] |} ].

Definition candidate (r : string) (v : Z) (src : string) (s : Q) : Core.FieldCandidate :=
  {| Core.row_id := r; Core.value := Some (Q2Qc (inject_Z v));
     Core.source_reference := src; Core.reasoning := "";
     Core.relevance_score := Some (Q2Qc s); Core.currency := "GBP" |}.

Definition plain_wording : Core.Wording :=
  {| Core.rule_name_of := fun id => id;
     Core.message_of := fun id _ => id;
     Core.field_name_of := fun r => r;
     Core.derived_reasoning := fun r _ => r;
     Core.overall_reasoning := fun _ _ => "" |}.

(** A failed result whose severity is neither ERROR nor WARNING. *)
Definition is_unlisted (r : Response.ValidationResult) : bool :=
  negb (Response.passed r) && negb (String.eqb (Response.severity r) "ERROR")
  && negb (String.eqb (Response.severity r) "WARNING").

(** The answers that make a query succeed: the response is [ok] and its
    body parses. *)
Definition succeeded {D : Type} (answer : App.fetched D) : option D :=
  match answer with
  | App.Resolved true _ (inr data) => Some data
  | _ => None
  end.

(** The message [catch] stores for an answer that fails. *)
Definition failure_message {D : Type} (answer : App.fetched D) : option string :=
  match answer with
  | App.Rejected message => Some message
  | App.Resolved false statusText _ => Some ("Error: " ++ statusText)%string
  | App.Resolved true _ (inl message) => Some message
  | App.Resolved true _ (inr _) => None
  end.

(** The data is within the response's declared types: a string currency,
    or none, and rows that are numbers, null or absent. *)
Definition typed (data : JS.object) : bool :=
  bool_decide (is_Some (TemplateTable.currency_of data))
  && forallb (fun k => match JS.get data k with
                       | JS.Str _ | JS.Bool _ => false
                       | _ => true
                       end) TemplateViewer.row_ids.

(** The table row of a displayed entry. *)
Definition renders (NumberFormat : JS.number_format) (data : JS.object) (cur : string)
    (e : string * TemplateViewer.FieldMeta) (r : TemplateTable.Row) : Prop :=
  exists x, JS.get data e.1 = JS.Num x /\ r = TemplateTable.row NumberFormat cur e x.

(** More sample inputs. *)
Definition info_result : Response.ValidationResult :=
  {| Response.rule_id := "R-INFO"; Response.rule_name := "Info";
     Response.passed := false; Response.severity := "INFO";
     Response.message := ""; Response.affected_fields := [] |}.

Definition entry (row : string) : Response.AuditEntry JS.amount :=
  {| Response.field_row := row; Response.field_name := row;
     Response.value := JS.NullAmount; Response.currency := "";
     Response.source_reference := ""; Response.reasoning := "";
     Response.confidence := None |}.

Definition stale_state : App.state nat :=
  {| App.loading := false; App.result := Some 3%nat; App.error := Some "old";
     App.activeTab := "audit" |}.

Definition priced_data : JS.object :=
  [ ("currency", JS.Str "EUR"); ("row_080", JS.Num (JS.of_Z (-50)));
    ("row_010", JS.Num (JS.of_Z 1000)); ("row_020", JS.Null) ].

(** The base rows of the four categories, the rows the totals are made of. *)
Definition capital_rows : list string :=
  Schema.base_rows Schema.CET1 ++ Schema.base_rows Schema.CET1_Deductions
  ++ Schema.base_rows Schema.AT1 ++ Schema.base_rows Schema.Tier2.

(** A whole amount. *)
Definition amount_of (z : Z) : Qc := Q2Qc (inject_Z z).

(** The spec's example: CET1 instruments, retained earnings, AT1 and
    Tier 2. *)
Definition own_funds_example : list Core.FieldCandidate :=
  [ candidate "row_010" 1000000000 "CRR 26" 0.9;
    candidate "row_030" 200000000 "CRR 26" 0.9;
    candidate "row_300" 50000000 "CRR 52" 0.8;
    candidate "row_500" 100000000 "CRR 62" 0.7 ].

(** A record with the given rows, as no Populator made it. *)
Definition record_of (l : list (string * Q)) : Core.TemplateRecord :=
  {| Core.template_type := "C01"; Core.record_currency := "GBP";
     Core.rows := list_to_map (map (fun kv => (fst kv, Q2Qc (snd kv))) l) |}.

(** A body that is a number is truthy unless it is zero. *)
Definition nonzero (n : nat) : bool := negb (n =? 0)%nat.

Definition pounds_data : JS.object :=
  [ ("currency", JS.Str "POUNDS"); ("row_010", JS.Num (JS.of_Z 1000)) ].


(** * Properties *)

(** ** Sorting *)

Section SortFacts.
Context {A : Type} (comparefn : A -> A -> option Z).


Lemma sort_in_order (l : list A) :
  StronglySorted (in_order comparefn) l -> JS.sort comparefn l = l.
Proof.
  induction 1 as [|x l Hl IH Hx]; [reflexivity|].
  cbn [JS.sort foldr]. fold (JS.sort comparefn l). rewrite IH.
  destruct Hx as [|y l' Hxy _]; [reflexivity|].
  cbn [JS.insert]. unfold in_order in Hxy. now rewrite Hxy.
Qed.

Lemma insert_Permutation (x : A) (l : list A) :
  JS.insert comparefn x l ≡ₚ x :: l.
Proof.
  induction l as [|y l IH]; cbn [JS.insert]; [reflexivity|].
  destruct (JS.gt0 (comparefn x y)); [|reflexivity].
  rewrite IH. apply Permutation_swap.
Qed.

Lemma sort_Permutation (l : list A) : JS.sort comparefn l ≡ₚ l.
Proof.
  induction l as [|x l IH]; [reflexivity|].
  cbn [JS.sort foldr]. fold (JS.sort comparefn l).
  now rewrite insert_Permutation, IH.
Qed.

End SortFacts.

Lemma StronglySorted_filter_keep {A : Type} (R : relation A) (P : A -> Prop)
    `{forall x, Decision (P x)} (l : list A) :
  StronglySorted R l -> StronglySorted R (filter P l).
Proof.
  induction 1 as [|x l Hl IH Hx]; [constructor|].
  rewrite filter_cons. destruct (decide (P x)); [|assumption].
  constructor; [assumption|].
  apply list.Forall_forall. intros y [_ Hy]%list_elem_of_filter.
  rewrite list.Forall_forall in Hx. now apply Hx.
Qed.

Lemma StronglySorted_weaken {A : Type} (R S : relation A) (l : list A) :
  (forall x y, R x y -> S x y) -> StronglySorted R l -> StronglySorted S l.
Proof.
  intros HRS. induction 1 as [|x l Hl IH Hx]; constructor; [assumption|].
  eapply list.Forall_impl; [exact Hx|]. intros y. apply HRS.
Qed.

(** ** [TemplateViewer]: the rows displayed *)

Section DisplayRows.
Import TemplateViewer.


Lemma FIELD_META_ascending : StronglySorted row_lt FIELD_META.
Proof. apply (bool_decide_unpack _). vm_compute. reflexivity. Qed.

Lemma row_lt_in_order a b : row_lt a b -> in_order by_row_number a b.
Proof.
  unfold row_lt, in_order, by_row_number.
  destruct (row_number a.1), (row_number b.1); cbn; try tauto.
  intros. apply Z.ltb_ge. lia.
Qed.

Lemma displayRows_filter (data : JS.object) :
  displayRows data = filter (has_value data) FIELD_META.
Proof.
  unfold displayRows. apply sort_in_order.
  apply StronglySorted_filter_keep.
  eapply StronglySorted_weaken; [apply row_lt_in_order|apply FIELD_META_ascending].
Qed.

Lemma row_ids_NoDup : NoDup row_ids.
Proof. apply (bool_decide_unpack _). vm_compute. reflexivity. Qed.

Lemma FIELD_META_NoDup : NoDup FIELD_META.
Proof. apply (NoDup_fmap_1 fst). apply row_ids_NoDup. Qed.

Lemma has_value_spec (data : JS.object) e :
  has_value data e <-> JS.get data e.1 <> JS.Null /\ JS.get data e.1 <> JS.Undefined.
Proof.
  destruct e as [key meta]. cbn.
  destruct (JS.get data key); cbn; intuition congruence.
Qed.

(** An object's properties are read by key: two objects with the same
    properties, in whatever order, read alike. *)
Lemma get_Some_elem (o : JS.object) k v :
  NoDup (map fst o) -> (k, v) ∈ o -> JS.get o k = v.
Proof.
  induction o as [|[k' v'] o IH]; intros Hnd Hin; [inversion Hin|].
  cbn. apply NoDup_cons in Hnd as [Hk' Hnd].
  destruct (String.eqb_spec k' k) as [->|Hne].
  - apply elem_of_cons in Hin as [Heq|Hin]; [congruence|].
    exfalso. apply Hk'. apply list_elem_of_fmap. exists (k, v). auto.
  - apply elem_of_cons in Hin as [Heq|Hin]; [congruence|]. auto.
Qed.

Lemma get_absent (o : JS.object) k :
  k ∉ map fst o -> JS.get o k = JS.Undefined.
Proof.
  induction o as [|[k' v'] o IH]; intros Hk; [reflexivity|].
  cbn in *. apply not_elem_of_cons in Hk as [Hne Hk].
  destruct (String.eqb_spec k' k); [congruence|auto].
Qed.

Lemma get_elem_or_absent (o : JS.object) k :
  (k, JS.get o k) ∈ o \/ k ∉ map fst o.
Proof.
  induction o as [|[k' v'] o IH]; [right; apply not_elem_of_nil|].
  cbn. destruct (String.eqb_spec k' k) as [->|Hne].
  - left. apply elem_of_cons. auto.
  - destruct IH as [IH|IH]; [left; apply elem_of_cons; auto|].
    right. apply not_elem_of_cons. auto.
Qed.

Lemma get_Permutation (o o' : JS.object) k :
  NoDup (map fst o) -> o' ≡ₚ o -> JS.get o' k = JS.get o k.
Proof.
  intros Hnd Hp.
  assert (Hnd' : NoDup (map fst o')) by now rewrite Hp.
  destruct (get_elem_or_absent o k) as [Hin|Hout].
  - apply get_Some_elem; [assumption|]. now rewrite Hp.
  - rewrite (get_absent o k Hout). apply get_absent. now rewrite Hp.
Qed.

Lemma has_value_ext (data data' : JS.object) :
  (forall k, JS.get data' k = JS.get data k) ->
  forall e, has_value data' e = has_value data e.
Proof. intros Hget [key meta]. cbn. now rewrite Hget. Qed.

End DisplayRows.

Section DisplayRowsClaims.
Import TemplateViewer.

(** C8. For every [template_data] object, [displayRows] holds exactly the
    [FIELD_META] rows whose value in the object is neither [null] nor
    [undefined], each once, in strictly ascending order of the number in
    the row id; an object with the same properties in another key order
    gives the same rows. *)
Theorem displayRows_exact_and_ascending (data : JS.object) :
  (forall e, e ∈ displayRows data <->
     e ∈ FIELD_META /\ JS.get data e.1 <> JS.Null /\ JS.get data e.1 <> JS.Undefined)
  /\ NoDup (displayRows data)
  /\ StronglySorted row_lt (displayRows data)
  /\ (forall data' : JS.object,
        NoDup (map fst data) -> data' ≡ₚ data -> displayRows data' = displayRows data).
Proof.
  rewrite displayRows_filter. split; [|split; [|split]].
  - intros e. rewrite list_elem_of_filter, has_value_spec. tauto.
  - apply NoDup_filter, FIELD_META_NoDup.
  - apply StronglySorted_filter_keep, FIELD_META_ascending.
  - intros data' Hnd Hp. rewrite displayRows_filter.
    apply list_filter_iff. intros e.
    rewrite (has_value_ext data data'); [reflexivity|].
    intros k. now apply get_Permutation.
Qed.


Lemma displayRows_exact_and_ascending_witness :
  displayRows (rev sample_data) = displayRows sample_data
  /\ map fst (displayRows sample_data) = ["row_010"; "row_700"].
Proof.
  split; [|reflexivity].
  apply (proj2 (proj2 (proj2 (displayRows_exact_and_ascending sample_data)))).
  - apply (bool_decide_unpack _). vm_compute. reflexivity.
  - symmetry. apply Permutation_rev.
Defined.

(** The table does not have 20 rows. *)
Lemma FIELD_META_not_twenty_rows :
  (length row_ids =? 20)%nat = false /\ "row_095" ∈ row_ids.
Proof. split; [reflexivity|]. apply (bool_decide_unpack _). vm_compute. reflexivity. Qed.

End DisplayRowsClaims.

(** ** The two [formatCurrency] *)

Section FormatCurrency.
Context (NumberFormat : JS.number_format).

Lemma Math_abs_id (x : JS.number) :
  JS.lt0 x = false -> JS.is_neg_zero x = false -> JS.Math_abs x = x.
Proof.
  destruct x as [|neg|neg m e]; cbn; [reflexivity|now intros ->|].
  destruct neg; [|reflexivity]. cbn. destruct (m =? 0)%N; discriminate.
Qed.

(** C9, as the code has it.  Both functions return the dash for [null] and
    for [undefined].  They return the same for every number that is not
    negative and is not negative zero, whatever the currency.  For a
    negative number the viewer's wraps the formatted absolute value in
    parentheses, and the audit trail's formats the signed number. *)
Theorem formatCurrency_compare (currency : option string) :
  (forall v, v = JS.NoAmount \/ v = JS.NullAmount ->
     TemplateViewer.formatCurrency NumberFormat v currency = Some "—"
     /\ AuditTrail.formatCurrency NumberFormat v currency = Some "—")
  /\ (forall x, JS.lt0 x = false -> JS.is_neg_zero x = false ->
        TemplateViewer.formatCurrency NumberFormat (JS.Amount x) currency
        = AuditTrail.formatCurrency NumberFormat (JS.Amount x) currency)
  /\ (forall x, JS.lt0 x = true ->
        TemplateViewer.formatCurrency NumberFormat (JS.Amount x) currency
        = (fun format => "(" ++ format (JS.Math_abs x) ++ ")")%string
            <$> NumberFormat (default "GBP" currency)
        /\ AuditTrail.formatCurrency NumberFormat (JS.Amount x) currency
           = (fun format => format x) <$> NumberFormat (default "GBP" currency)).
Proof.
  split; [|split].
  - intros v [-> | ->]; split; reflexivity.
  - intros x Hlt Hnz. unfold TemplateViewer.formatCurrency, AuditTrail.formatCurrency.
    rewrite Hlt, (Math_abs_id x Hlt Hnz). reflexivity.
  - intros x Hlt. unfold TemplateViewer.formatCurrency, AuditTrail.formatCurrency.
    rewrite Hlt. destruct (NumberFormat (default "GBP" currency)); split; reflexivity.
Qed.

End FormatCurrency.

Lemma formatCurrency_compare_witness :
  (TemplateViewer.formatCurrency JS.NumberFormat_enGB JS.NullAmount (Some "GBP") = Some "—"
   /\ AuditTrail.formatCurrency JS.NumberFormat_enGB JS.NullAmount (Some "GBP") = Some "—")
  /\ TemplateViewer.formatCurrency JS.NumberFormat_enGB (JS.Amount (JS.of_Z 1200)) (Some "GBP")
     = AuditTrail.formatCurrency JS.NumberFormat_enGB (JS.Amount (JS.of_Z 1200)) (Some "GBP")
  /\ TemplateViewer.formatCurrency JS.NumberFormat_enGB (JS.Amount (JS.of_Z (-50))) (Some "GBP")
     = Some "(£50)"
  /\ AuditTrail.formatCurrency JS.NumberFormat_enGB (JS.Amount (JS.of_Z (-50))) (Some "GBP")
     = Some "-£50".
Proof.
  pose proof (formatCurrency_compare JS.NumberFormat_enGB (Some "GBP")) as (Hnull & Hsame & Hneg).
  split; [apply Hnull; right; reflexivity|].
  split; [apply Hsame; reflexivity|].
  apply (Hneg (JS.of_Z (-50))). reflexivity.
Defined.

(** Negative zero is not below zero, and the two functions render it
    differently. *)
Lemma formatCurrency_negative_zero :
  JS.ge0 JS.neg_zero = true
  /\ TemplateViewer.formatCurrency JS.NumberFormat_enGB (JS.Amount JS.neg_zero) (Some "GBP")
     = Some "£0"
  /\ AuditTrail.formatCurrency JS.NumberFormat_enGB (JS.Amount JS.neg_zero) (Some "GBP")
     = Some "-£0".
Proof. repeat split. Qed.

(** ** [QueryInterface] and [App] *)

Section Forms.


Lemma truthy_trim_start (l : JS.ustring) :
  JS.truthy (JS.trim_start l) = existsb not_space l.
Proof.
  induction l as [|c l IH]; [reflexivity|].
  cbn [JS.trim_start existsb].
  destruct (JS.is_white_space c) eqn:E; unfold not_space at 1; rewrite E;
    [exact IH|reflexivity].
Qed.

Lemma truthy_rev (l : JS.ustring) : JS.truthy (rev l) = JS.truthy l.
Proof.
  destruct l as [|c l]; [reflexivity|]. cbn.
  destruct (rev l ++ [c]) eqn:E; [|reflexivity].
  now apply app_eq_nil in E as [_ ?].
Qed.

Lemma existsb_rev (p : N -> bool) (l : JS.ustring) : existsb p (rev l) = existsb p l.
Proof.
  induction l as [|c l IH]; [reflexivity|].
  cbn. rewrite existsb_app, IH. cbn. rewrite orb_false_r. apply orb_comm.
Qed.

Lemma existsb_trim_start (l : JS.ustring) :
  existsb not_space (JS.trim_start l) = existsb not_space l.
Proof.
  induction l as [|c l IH]; [reflexivity|].
  cbn [JS.trim_start existsb].
  destruct (JS.is_white_space c) eqn:E; [|reflexivity].
  unfold not_space at 2. now rewrite E.
Qed.

(** [s.trim()] is truthy exactly when [s] has a character that is not
    white space. *)
Lemma truthy_trim (s : JS.ustring) :
  JS.truthy (JS.trim s) = existsb not_space s.
Proof.
  unfold JS.trim, JS.trim_end.
  now rewrite truthy_rev, truthy_trim_start, existsb_rev, existsb_trim_start.
Qed.

Lemma not_blank_iff (s : JS.ustring) :
  existsb not_space s = true <-> exists c, c ∈ s /\ JS.is_white_space c = false.
Proof.
  rewrite existsb_exists. unfold not_space. split.
  - intros (c & Hin & Hc). exists c. split; [now apply list_elem_of_In|].
    now apply negb_true_iff.
  - intros (c & Hin & Hc). exists c. split; [now apply list_elem_of_In|].
    now apply negb_true_iff.
Qed.

Lemma blank_iff (s : JS.ustring) :
  negb (existsb not_space s) = forallb JS.is_white_space s.
Proof.
  induction s as [|c s IH]; [reflexivity|].
  cbn. rewrite negb_orb, IH. unfold not_space. now rewrite negb_involutive.
Qed.

Lemma handleSubmit_eq {T : Type} (k : JS.ustring -> JS.ustring -> T)
    (s : QueryInterface.state) :
  QueryInterface.handleSubmit k s
  = if existsb not_space (QueryInterface.question s)
    then Some (k (QueryInterface.question s) (QueryInterface.scenario s))
    else None.
Proof. unfold QueryInterface.handleSubmit. now rewrite truthy_trim. Qed.

(** C10. A submission of the form calls [onSubmit(question, scenario)]
    exactly when the question has a character that is not white space; the
    button is disabled exactly when [loading] holds or the question is
    blank; and a blank question sends nothing. *)
Theorem handleSubmit_iff_not_blank {R : Type}
    (onSubmit : JS.ustring -> JS.ustring -> R) (s : QueryInterface.state)
    (loading : bool) :
  QueryInterface.handleSubmit onSubmit s
  = (if existsb not_space (QueryInterface.question s)
     then Some (onSubmit (QueryInterface.question s) (QueryInterface.scenario s))
     else None)
  /\ (is_Some (QueryInterface.handleSubmit onSubmit s)
      <-> exists c, c ∈ QueryInterface.question s /\ JS.is_white_space c = false)
  /\ QueryInterface.disabled loading s
     = loading || forallb JS.is_white_space (QueryInterface.question s)
  /\ (forallb JS.is_white_space (QueryInterface.question s) = true ->
      QueryInterface.handleSubmit onSubmit s = None
      /\ QueryInterface.disabled loading s = true
      /\ forall (B D : Type) (JSON_stringify : App.json -> B)
           (fetch : App.Request B -> App.fetched D) (st : App.state D),
           App.submit JSON_stringify fetch s st = None).
Proof.
  pose proof (fun T k => @handleSubmit_eq T k s) as Hsub.
  assert (Hdis : QueryInterface.disabled loading s
                 = loading || forallb JS.is_white_space (QueryInterface.question s)).
  { unfold QueryInterface.disabled. now rewrite truthy_trim, blank_iff. }
  split; [apply Hsub|]. split; [|split; [exact Hdis|]].
  - rewrite Hsub, <- not_blank_iff.
    destruct (existsb not_space (QueryInterface.question s)).
    + split; [reflexivity|]. intros _. eexists; reflexivity.
    + split; [intros [? [=]]|discriminate].
  - intros Hblank. rewrite <- blank_iff in Hblank. apply negb_true_iff in Hblank.
    split; [|split].
    + now rewrite Hsub, Hblank.
    + rewrite Hdis, <- blank_iff, Hblank. apply orb_true_r.
    + intros B D J fetch st. unfold App.submit. now rewrite Hsub, Hblank.
Qed.


Lemma handleSubmit_iff_not_blank_witness :
  QueryInterface.handleSubmit (fun q sc => (q, sc)) blank_form = None
  /\ QueryInterface.disabled false blank_form = true.
Proof.
  pose proof (proj2 (proj2 (proj2
    (handleSubmit_iff_not_blank (fun q sc => (q, sc)) blank_form false))) eq_refl)
    as (Hnone & Hdis & _).
  split; assumption.
Defined.

(** C6. Whatever the question, the scenario, the component's state and the
    network's answer, [handleQuery] sends one request: a POST to
    [/api/query] whose body is [JSON.stringify] of the object with the
    three properties [question], [scenario] and [template_type], in this
    order, the last one the string [C01].  A submission of the form sends
    this request when the question is not blank, and nothing otherwise. *)
Theorem handleQuery_request_body {B D : Type} (JSON_stringify : App.json -> B)
    (fetch : App.Request B -> App.fetched D)
    (question scenario : JS.ustring) (st : App.state D) :
  let request :=
    fun q sc =>
      {| App.url := "/api/query";
         App.method := "POST";
         App.headers := [("Content-Type", "application/json")];
         App.body :=
           JSON_stringify
             (App.JObject [ ("question", App.JString q);
                            ("scenario", App.JString sc);
                            ("template_type", App.JString (JS.lit "C01")) ]) |} in
  fst (App.handleQuery JSON_stringify fetch question scenario st)
  = [request question scenario]
  /\ (forall form : QueryInterface.state,
        fst <$> App.submit JSON_stringify fetch form st
        = if existsb not_space (QueryInterface.question form)
          then Some [request (QueryInterface.question form) (QueryInterface.scenario form)]
          else None).
Proof.
  intros request. split; [reflexivity|].
  intros form. unfold App.submit.
  rewrite handleSubmit_eq.
  now destruct (existsb not_space (QueryInterface.question form)).
Qed.

End Forms.

(** ** [ValidationPanel] *)

Section Validation.
Import Response ValidationPanel.

Lemma section_items (t : string) (l : list ValidationResult) :
  concat (map items (section t l)) = l.
Proof. destruct l; [reflexivity|]. cbn. now rewrite app_nil_r. Qed.

Lemma section_titles (t : string) (l : list ValidationResult) :
  Forall (fun g => title g = t) (section t l).
Proof. destruct l; repeat constructor. Qed.

Lemma filter_title_same (t : string) (gs : list group) :
  Forall (fun g => title g = t) gs ->
  filter (fun g => String.eqb (title g) t) gs = gs.
Proof.
  induction 1 as [|g gs Hg _ IH]; [reflexivity|].
  rewrite filter_cons_True; [now rewrite IH|].
  rewrite Hg. now rewrite String.eqb_refl.
Qed.

Lemma filter_title_other (t t' : string) (gs : list group) :
  t' <> t -> Forall (fun g => title g = t') gs ->
  filter (fun g => String.eqb (title g) t) gs = [].
Proof.
  intros Hne. induction 1 as [|g gs Hg _ IH]; [reflexivity|].
  rewrite filter_cons_False; [exact IH|].
  rewrite Hg. destruct (String.eqb_spec t' t); [contradiction|]. cbn. tauto.
Qed.

Lemma shown_errors (results : list ValidationResult) :
  shown_under "Blocking Errors" (ValidationPanel (Some results)) = errors results.
Proof.
  destruct results as [|r results]; [reflexivity|].
  cbn [ValidationPanel shown_under]. rewrite !filter_app.
  rewrite (filter_title_same _ _ (section_titles _ _)).
  rewrite (filter_title_other "Blocking Errors" "Warnings")
    by first [discriminate | apply section_titles].
  rewrite (filter_title_other "Blocking Errors" "Rules Passed")
    by first [discriminate | apply section_titles].
  now rewrite !app_nil_r, section_items.
Qed.

Lemma shown_warnings (results : list ValidationResult) :
  shown_under "Warnings" (ValidationPanel (Some results)) = warnings results.
Proof.
  destruct results as [|r results]; [reflexivity|].
  cbn [ValidationPanel shown_under]. rewrite !filter_app.
  rewrite (filter_title_same _ _ (section_titles "Warnings" _)).
  rewrite (filter_title_other "Warnings" "Blocking Errors")
    by first [discriminate | apply section_titles].
  rewrite (filter_title_other "Warnings" "Rules Passed")
    by first [discriminate | apply section_titles].
  rewrite app_nil_r. cbn [app]. apply section_items.
Qed.

Lemma is_error_spec (r : ValidationResult) :
  is_error r <-> passed r = false /\ severity r = "ERROR".
Proof.
  unfold is_error. destruct (passed r), (String.eqb_spec (severity r) "ERROR"); cbn;
    intuition congruence.
Qed.

Lemma is_warning_spec (r : ValidationResult) :
  is_warning r <-> passed r = false /\ severity r = "WARNING".
Proof.
  unfold is_warning. destruct (passed r), (String.eqb_spec (severity r) "WARNING"); cbn;
    intuition congruence.
Qed.

Lemma submission_ready_no_error (results : list ValidationResult) :
  Core.submission_ready results = true <-> errors results = [].
Proof.
  unfold Core.submission_ready, errors. induction results as [|r results IH]; [done|].
  cbn [forallb]. rewrite andb_true_iff, IH, filter_cons.
  destruct (decide (is_error r)) as [He|He].
  - split; [|discriminate]. intros [Hr _]. apply is_error_spec in He as [Hp Hs].
    rewrite Hp, Hs in Hr. discriminate.
  - split; [tauto|]. intros ->. split; [|reflexivity].
    apply negb_true_iff, not_true_is_false. intros [Hs Hp%negb_true_iff]%andb_true_iff.
    apply He, is_error_spec. split; [assumption|]. now apply String.eqb_eq.
Qed.

(** C5. The results are submission-ready exactly when none of them is an
    ERROR that did not pass, which is when the panel shows no blocking
    error; dropping the WARNING results changes nothing; and the panel
    lists under "Blocking Errors" the results with [passed = false] and
    severity ERROR, under "Warnings" those with [passed = false] and
    severity WARNING, in the order of the results. *)
Theorem submission_ready_iff_no_blocking_error (results : list ValidationResult) :
  (Core.submission_ready results = true
   <-> forall r, r ∈ results -> severity r = "ERROR" -> passed r = true)
  /\ (Core.submission_ready results = true
      <-> shown_under "Blocking Errors" (ValidationPanel (Some results)) = [])
  /\ Core.submission_ready (filter (fun r => severity r <> "WARNING") results)
     = Core.submission_ready results
  /\ shown_under "Blocking Errors" (ValidationPanel (Some results))
     = filter (fun r => passed r = false /\ severity r = "ERROR") results
  /\ shown_under "Warnings" (ValidationPanel (Some results))
     = filter (fun r => passed r = false /\ severity r = "WARNING") results.
Proof.
  rewrite shown_errors, shown_warnings. split; [|split; [|split; [|split]]].
  - unfold Core.submission_ready. rewrite forallb_forall. split.
    + intros H r Hr%list_elem_of_In Hs. specialize (H r Hr).
      rewrite Hs in H. cbn in H. now apply negb_true_iff, negb_false_iff in H.
    + intros H r Hr%list_elem_of_In. apply negb_true_iff, andb_false_iff.
      destruct (String.eqb_spec (severity r) "ERROR") as [Hs|]; [|now left].
      right. now rewrite (H r Hr Hs).
  - apply submission_ready_no_error.
  - unfold Core.submission_ready. induction results as [|r results IH]; [reflexivity|].
    rewrite filter_cons. destruct (decide (severity r <> "WARNING")) as [Hs|Hs].
    + cbn [forallb]. now rewrite IH.
    + cbn [forallb]. rewrite IH. apply dec_stable in Hs. now rewrite Hs.
  - apply list_filter_iff. intros r. apply is_error_spec.
  - apply list_filter_iff. intros r. apply is_warning_spec.
Qed.


Lemma submission_ready_iff_no_blocking_error_witness :
  Core.submission_ready sample_results = true.
Proof.
  apply (proj1 (submission_ready_iff_no_blocking_error sample_results)).
  intros r Hr Hs. apply list_elem_of_In in Hr.
  destruct Hr as [<-|[<-|[]]]; [reflexivity|discriminate Hs].
Defined.

End Validation.

(** ** [AuditTrail]: the partition of the entries *)

Section Partition.
Import Response AuditTrail.
Context {V : Type}.

Lemma fieldEntries_body (body : list (AuditEntry V)) (e : AuditEntry V) :
  Forall (fun e => field_row e <> "OVERALL") body -> field_row e = "OVERALL" ->
  fieldEntries (body ++ [e]) = body.
Proof.
  intros Hbody He. unfold fieldEntries. rewrite filter_app.
  rewrite filter_cons_False, filter_nil, app_nil_r.
  - induction Hbody as [|x body Hx _ IH]; [reflexivity|].
    rewrite filter_cons_True; [now rewrite IH|].
    unfold is_field. now destruct (String.eqb_spec (field_row x) "OVERALL").
  - unfold is_field. rewrite He. cbn. tauto.
Qed.

Lemma overallEntry_last (body : list (AuditEntry V)) (e : AuditEntry V) :
  Forall (fun e => field_row e <> "OVERALL") body -> field_row e = "OVERALL" ->
  overallEntry (body ++ [e]) = Some e.
Proof.
  intros Hbody He. unfold overallEntry, JS.find.
  induction Hbody as [|x body Hx _ IH]; cbn.
  - unfold is_overall. now rewrite He.
  - unfold is_overall at 1. now destruct (String.eqb_spec (field_row x) "OVERALL").
Qed.

Lemma overall_count (body : list (AuditEntry V)) (e : AuditEntry V) :
  Forall (fun e => field_row e <> "OVERALL") body -> field_row e = "OVERALL" ->
  filter is_overall (body ++ [e]) = [e].
Proof.
  intros Hbody He. rewrite filter_app.
  rewrite filter_cons_True, filter_nil by (unfold is_overall; now rewrite He).
  induction Hbody as [|x body Hx _ IH]; [reflexivity|].
  rewrite filter_cons_False; [exact IH|].
  unfold is_overall. destruct (String.eqb_spec (field_row x) "OVERALL"); cbn; tauto.
Qed.

End Partition.

(** ** The engine: arithmetic of nullable rows *)

Section Nullable.
Import Schema Core.
Local Open Scope Qc_scope.


Lemma num_add_nullable (a b : option Qc) :
  num (add_nullable a b) = num a + num b.
Proof. destruct a, b; cbn; ring. Qed.

Lemma num_sum_nullable (l : list (option Qc)) :
  num (sum_nullable l) = total (map num l).
Proof.
  induction l as [|a l IH]; [reflexivity|].
  cbn [sum_nullable foldr map total]. fold (sum_nullable l). fold (total (map num l)).
  now rewrite num_add_nullable, IH.
Qed.

Lemma add_nullable_None (a b : option Qc) :
  add_nullable a b = None <-> a = None /\ b = None.
Proof. destruct a, b; cbn; intuition congruence. Qed.

Lemma sum_nullable_None (l : list (option Qc)) :
  sum_nullable l = None <-> Forall (fun v => v = None) l.
Proof.
  induction l as [|a l IH]; [split; [constructor|reflexivity]|].
  cbn [sum_nullable foldr]. fold (sum_nullable l).
  rewrite add_nullable_None, IH, list.Forall_cons. tauto.
Qed.

Lemma epsilon_nonneg : 0 <= epsilon.
Proof. unfold Qcle, epsilon. vm_compute. discriminate. Qed.

Lemma within_epsilon_refl (x : Qc) : within_epsilon x x = true.
Proof.
  unfold within_epsilon. replace (x - x) with 0 by ring.
  rewrite bool_decide_eq_true_2 by apply epsilon_nonneg. reflexivity.
Qed.

Lemma lookup_set_row (r : string) (v : option Qc) (m : gmap string Qc) (k : string) :
  set_row r v m !! k = if decide (r = k) then v else m !! k.
Proof. destruct v; cbn; [apply lookup_insert|apply lookup_delete]. Qed.

Lemma lookup_set_row_ne (r : string) (v : option Qc) (m : gmap string Qc) (k : string) :
  r <> k -> set_row r v m !! k = m !! k.
Proof. intros Hne. rewrite lookup_set_row. now destruct (decide (r = k)). Qed.

Lemma sum_rows_ext (m m' : gmap string Qc) (rs : list string) :
  Forall (fun r => m' !! r = m !! r) rs -> sum_rows m' rs = sum_rows m rs.
Proof.
  unfold sum_rows. induction 1 as [|r rs Hr _ IH]; [reflexivity|].
  cbn [map sum_nullable foldr]. unfold sum_nullable in IH. now rewrite Hr, IH.
Qed.


Lemma derive_other (m : gmap string Qc) (k : string) :
  k ∉ derived_rows -> derive m !! k = m !! k.
Proof.
  intros Hk. unfold derive, derived_rows in *.
  rewrite !not_elem_of_cons in Hk. destruct Hk as (H1 & H2 & H3 & H4 & H5 & _).
  cbv zeta. rewrite !lookup_set_row_ne by congruence. reflexivity.
Qed.

Lemma base_rows_not_derived (c : Category) :
  Forall (fun r => r ∉ derived_rows) (base_rows c).
Proof. destruct c; apply (bool_decide_unpack _); vm_compute; reflexivity. Qed.

Lemma sum_rows_set_row (r : string) (v : option Qc) (m : gmap string Qc) (c : Category) :
  r ∈ derived_rows -> sum_rows (set_row r v m) (base_rows c) = sum_rows m (base_rows c).
Proof.
  intros Hr. apply sum_rows_ext.
  eapply list.Forall_impl; [apply (base_rows_not_derived c)|].
  intros k Hk. cbn beta. apply lookup_set_row_ne. congruence.
Qed.

Lemma sum_rows_derive (m : gmap string Qc) (c : Category) :
  sum_rows (derive m) (base_rows c) = sum_rows m (base_rows c).
Proof.
  apply sum_rows_ext.
  eapply list.Forall_impl; [apply (base_rows_not_derived c)|].
  intros k Hk. now apply derive_other.
Qed.

Lemma lookup_set_row_eq (r : string) (v : option Qc) (m : gmap string Qc) :
  set_row r v m !! r = v.
Proof. rewrite lookup_set_row. now rewrite decide_True. Qed.

Ltac derived_row := apply (bool_decide_unpack _); vm_compute; reflexivity.

Ltac derive_lookup :=
  unfold derive; cbv zeta;
  repeat first
    [ rewrite lookup_set_row_eq
    | rewrite lookup_set_row_ne by discriminate
    | rewrite sum_rows_set_row by derived_row ];
  reflexivity.


Lemma derive_CET1_before_adjustments (m : gmap string Qc) :
  derive m !! CET1_before_adjustments = CET1_of m.
Proof. unfold CET1_of. derive_lookup. Qed.

Lemma derive_CET1_total (m : gmap string Qc) :
  derive m !! CET1_total = CET1_of m.
Proof. unfold CET1_of. derive_lookup. Qed.

Lemma derive_Tier1_total (m : gmap string Qc) :
  derive m !! Tier1_total = Tier1_of m.
Proof. unfold Tier1_of, CET1_of. derive_lookup. Qed.

Lemma derive_Tier2_total (m : gmap string Qc) :
  derive m !! Tier2_total = Tier2_of m.
Proof. unfold Tier2_of. derive_lookup. Qed.

Lemma derive_Total_own_funds (m : gmap string Qc) :
  derive m !! Total_own_funds = add_nullable (Tier1_of m) (Tier2_of m).
Proof. unfold Tier1_of, Tier2_of, CET1_of. derive_lookup. Qed.

End Nullable.

(** ** The engine: resolution of duplicates *)

Section Resolution.
Import Schema Core.
Local Open Scope Qc_scope.

Lemma winner_snoc (cs : list FieldCandidate) (x : FieldCandidate) (r : string) :
  winner (cs ++ [x]) r = challenge r (winner cs r) x.
Proof. unfold winner. now rewrite fold_left_app. Qed.

Lemma wins_snoc_other (cs : list FieldCandidate) (x c : FieldCandidate) (r : string) :
  (row_id x <> r \/ score x <= score c) -> wins cs r c -> wins (cs ++ [x]) r c.
Proof.
  intros Hx (i & Hi & Hr & Hbest). exists i.
  pose proof (lookup_lt_Some _ _ _ Hi) as Hlen.
  split; [now rewrite lookup_app_l|]. split; [assumption|].
  intros j c' Hj Hr'. destruct (decide (j < length cs)%nat) as [Hlt|Hge].
  - rewrite lookup_app_l in Hj by assumption. eauto.
  - rewrite lookup_app_r in Hj by lia.
    destruct (j - length cs)%nat as [|n] eqn:E; [|now destruct n].
    cbn in Hj. injection Hj as <-. destruct Hx as [Hx|Hx]; [contradiction|].
    split; [assumption|lia].
Qed.

Lemma wins_snoc_new (cs : list FieldCandidate) (x : FieldCandidate) :
  (forall c', c' ∈ cs -> row_id c' = row_id x -> score c' < score x) ->
  wins (cs ++ [x]) (row_id x) x.
Proof.
  intros Hlow. exists (length cs). split; [|split; [reflexivity|]].
  - rewrite lookup_app_r by lia. now rewrite Nat.sub_diag.
  - intros j c' Hj Hr'. destruct (decide (j < length cs)%nat) as [Hlt|Hge].
    + rewrite lookup_app_l in Hj by assumption.
      assert (score c' < score x) by (apply Hlow; [eapply list_elem_of_lookup_2|]; eauto).
      split; [now apply Qclt_le_weak|auto].
    + rewrite lookup_app_r in Hj by lia.
      destruct (j - length cs)%nat as [|n] eqn:E; [|now destruct n].
      cbn in Hj. injection Hj as <-. split; [apply Qcle_refl|lia].
Qed.

(** The fold computes the winner the rule describes. *)
Lemma winner_resolves (cs : list FieldCandidate) (r : string) :
  match winner cs r with
  | Some c => wins cs r c
  | None => forall c, c ∈ cs -> row_id c <> r
  end.
Proof.
  induction cs as [|x cs IH] using rev_ind.
  - cbn. intros c Hc. now apply elem_of_nil in Hc.
  - rewrite winner_snoc. unfold challenge.
    destruct (String.eqb_spec (row_id x) r) as [Hx|Hx].
    + destruct (winner cs r) as [b|].
      * case_bool_decide as Hlt.
        -- subst r. apply wins_snoc_new. intros c' Hc' Hr'.
           destruct IH as (i & Hi & Hr & Hbest).
           apply list_elem_of_lookup in Hc' as [j Hj].
           destruct (Hbest j c' Hj Hr') as [Hle _].
           eapply Qcle_lt_trans; eauto.
        -- apply wins_snoc_other; [|assumption]. right. now apply Qcnot_lt_le.
      * subst r. apply wins_snoc_new. intros c' Hc' Hr'. now destruct (IH c' Hc').
    + destruct (winner cs r) as [b|].
      * apply wins_snoc_other; [now left|assumption].
      * intros c [Hc| ->%list_elem_of_singleton]%elem_of_app; [now apply IH|assumption].
Qed.

Lemma wins_unique (cs : list FieldCandidate) (r : string) (c1 c2 : FieldCandidate) :
  wins cs r c1 -> wins cs r c2 -> c1 = c2.
Proof.
  intros (i1 & Hi1 & Hr1 & Hb1) (i2 & Hi2 & Hr2 & Hb2).
  destruct (Nat.lt_trichotomy i1 i2) as [Hlt|[->|Hlt]].
  - destruct (Hb2 i1 c1 Hi1 Hr1) as [_ Hs]. specialize (Hs Hlt).
    destruct (Hb1 i2 c2 Hi2 Hr2) as [Hle _].
    exfalso. eapply Qclt_not_le; eauto.
  - congruence.
  - destruct (Hb1 i2 c2 Hi2 Hr2) as [_ Hs]. specialize (Hs Hlt).
    destruct (Hb2 i1 c1 Hi1 Hr1) as [Hle _].
    exfalso. eapply Qclt_not_le; eauto.
Qed.

Lemma wins_elem (cs : list FieldCandidate) (r : string) (c : FieldCandidate) :
  wins cs r c -> c ∈ cs /\ row_id c = r.
Proof. intros (i & Hi & Hr & _). split; [eapply list_elem_of_lookup_2|]; eauto. Qed.

(** Two resolutions that obey the rule are the same function. *)
Lemma resolves_unique (cs : list FieldCandidate)
    (choice1 choice2 : string -> option FieldCandidate) :
  resolves cs choice1 -> resolves cs choice2 -> forall r, choice1 r = choice2 r.
Proof.
  intros H1 H2 r. specialize (H1 r). specialize (H2 r).
  destruct (choice1 r) as [c1|], (choice2 r) as [c2|]; [| | |reflexivity].
  - f_equal. eapply wins_unique; eauto.
  - apply wins_elem in H1 as [Hc Hr]. now destruct (H2 c1 Hc).
  - apply wins_elem in H2 as [Hc Hr]. now destruct (H1 c2 Hc).
Qed.

Lemma winner_is_resolution (cs : list FieldCandidate) :
  resolves cs (winner (accepted cs)).
Proof. intros r. apply winner_resolves. Qed.

Lemma winners_by_ext (choice1 choice2 : string -> option FieldCandidate) :
  (forall r, choice1 r = choice2 r) -> winners_by choice1 = winners_by choice2.
Proof.
  intros Hext. unfold winners_by. induction registry as [|e l IH]; [reflexivity|].
  cbn [omap list_omap]. now rewrite Hext, IH.
Qed.

End Resolution.

(** ** The engine: the populated record *)

Section Populated.
Import Schema Core.
Local Open Scope Qc_scope.

Lemma registry_NoDup : NoDup (map Schema.row_id registry).
Proof. apply (bool_decide_unpack _). vm_compute. reflexivity. Qed.

Lemma derived_rows_known : Forall (fun r => r ∈ map Schema.row_id registry) derived_rows.
Proof. apply (bool_decide_unpack _). vm_compute. reflexivity. Qed.

Lemma find_row_elem (l : list SchemaEntry) (r : string) (e : SchemaEntry) :
  List.find (fun e => String.eqb (Schema.row_id e) r) l = Some e ->
  e ∈ l /\ Schema.row_id e = r.
Proof.
  intros [Hin He]%find_some. split; [now apply list_elem_of_In|].
  now apply String.eqb_eq.
Qed.

Lemma find_row_None (l : list SchemaEntry) (r : string) :
  List.find (fun e => String.eqb (Schema.row_id e) r) l = None ->
  r ∉ map Schema.row_id l.
Proof.
  intros Hnone [e [-> He]]%list_elem_of_fmap.
  apply list_elem_of_In in He.
  pose proof (find_none _ _ Hnone e He) as Hne. cbn in Hne.
  now rewrite String.eqb_refl in Hne.
Qed.

(** A base row of the record holds the value of the candidate chosen for
    it; a row with no candidate, and a row outside the schema, is null. *)
Lemma fill_base_lookup (f : SchemaEntry -> option FieldCandidate)
    (l : list SchemaEntry) (r : string) :
  (forall e c, f e = Some c -> row_id c = Schema.row_id e) ->
  NoDup (map Schema.row_id l) ->
  fill_base (omap f l) !! r
  = (List.find (fun e => String.eqb (Schema.row_id e) r) l ≫= f) ≫= value.
Proof.
  intros Hf. induction l as [|e l IH]; intros Hnd; [apply lookup_empty|].
  cbn [map] in Hnd. apply NoDup_cons in Hnd as [Hfresh Hnd].
  cbn [omap list_omap List.find]. specialize (IH Hnd).
  destruct (f e) as [c|] eqn:Hfe.
  - cbn [fill_base foldr]. fold (fill_base (omap f l)).
    rewrite lookup_set_row, (Hf e c Hfe).
    destruct (String.eqb_spec (Schema.row_id e) r) as [Her|Her].
    + rewrite decide_True by assumption. cbn. now rewrite Hfe.
    + now rewrite decide_False by assumption.
  - destruct (String.eqb_spec (Schema.row_id e) r) as [Her|Her]; [|exact IH].
    cbn. rewrite Hfe. cbn. rewrite IH.
    destruct (List.find _ l) as [e'|] eqn:Hfind; [|reflexivity].
    apply find_row_elem in Hfind as [He' Hr']. exfalso. apply Hfresh.
    rewrite Her, <- Hr'. apply list_elem_of_fmap. eauto.
Qed.

Lemma fill_base_known (f : SchemaEntry -> option FieldCandidate)
    (l : list SchemaEntry) (r : string) :
  (forall e c, f e = Some c -> row_id c = Schema.row_id e) ->
  is_Some (fill_base (omap f l) !! r) -> r ∈ map Schema.row_id l.
Proof.
  intros Hf. induction l as [|e l IH]; intros Hsome.
  - cbn in Hsome. rewrite lookup_empty in Hsome. now destruct Hsome.
  - cbn [omap list_omap] in Hsome. cbn [map]. apply elem_of_cons.
    destruct (f e) as [c|] eqn:Hfe; [|right; now apply IH].
    cbn [fill_base foldr] in Hsome. fold (fill_base (omap f l)) in Hsome.
    rewrite lookup_set_row, (Hf e c Hfe) in Hsome.
    destruct (decide (Schema.row_id e = r)) as [Her|Her]; [now left|].
    right. now apply IH.
Qed.

Lemma rows_mk (ty cur : string) (m : gmap string Qc) :
  rows {| template_type := ty; record_currency := cur; rows := m |} = m.
Proof. reflexivity. Qed.

Lemma rows_populate_by (choice : string -> option FieldCandidate)
    (cs : list FieldCandidate) :
  rows (populate_by choice cs) = derive (fill_base (winners_by choice)).
Proof. exact (rows_mk _ _ _). Qed.

(** The rows of a record are rows of the schema. *)
Lemma populate_by_known (choice : string -> option FieldCandidate)
    (cs : list FieldCandidate) (r : string) :
  (forall r c, choice r = Some c -> row_id c = r) ->
  is_Some (rows (populate_by choice cs) !! r) -> r ∈ map Schema.row_id registry.
Proof.
  intros Hchoice. rewrite rows_populate_by.
  destruct (decide (r ∈ derived_rows)) as [Hd|Hd].
  - intros _. pose proof derived_rows_known as Hk.
    rewrite list.Forall_forall in Hk. apply Hk, Hd.
  - rewrite derive_other by assumption.
    unfold winners_by. apply fill_base_known.
    intros e c. case_bool_decide; [apply Hchoice|discriminate].
Qed.

Lemma resolves_row (cs : list FieldCandidate)
    (choice : string -> option FieldCandidate) :
  resolves cs choice -> forall r c, choice r = Some c -> row_id c = r.
Proof.
  intros Hres r c Hc. specialize (Hres r). rewrite Hc in Hres.
  now apply wins_elem in Hres.
Qed.

(** A candidate for a derived row leaves no trace. *)
Lemma base_candidates_filter (cs : list FieldCandidate) :
  base_candidates (filter for_base_row cs) = base_candidates cs.
Proof.
  unfold base_candidates, well_formed. rewrite !list_filter_filter.
  apply list_filter_iff. tauto.
Qed.

Lemma populate_base_candidates (cs cs' : list FieldCandidate) :
  base_candidates cs' = base_candidates cs -> populate cs' = populate cs.
Proof.
  intros H. unfold populate, populate_by, accepted. rewrite H. reflexivity.
Qed.

Lemma base_rows_lookup (c : Category) (r : string) :
  r ∈ base_rows c ->
  (r ∉ derived_rows)
  /\ (fun e => (Schema.row_id e, kind e)) <$> lookup_row r = Some (r, BASE).
Proof.
  intros Hr. split.
  - pose proof (base_rows_not_derived c) as H. rewrite list.Forall_forall in H. auto.
  - revert r Hr. apply list.Forall_forall. destruct c;
      apply (bool_decide_unpack _); vm_compute; reflexivity.
Qed.

(** A base row of a populated record holds the value of the candidate
    chosen for it. *)
Lemma populate_by_base (choice : string -> option FieldCandidate)
    (cs : list FieldCandidate) (c : Category) (r : string) :
  (forall r c, choice r = Some c -> row_id c = r) ->
  r ∈ base_rows c ->
  rows (populate_by choice cs) !! r = choice r ≫= value.
Proof.
  intros Hchoice [Hd Hlook]%base_rows_lookup.
  rewrite rows_populate_by, derive_other by assumption.
  unfold winners_by. rewrite fill_base_lookup.
  - unfold lookup_row in Hlook.
    destruct (List.find _ registry) as [e|]; [|discriminate Hlook].
    cbn in Hlook. injection Hlook as Hrow Hkind. cbn [mbind option_bind].
    rewrite Hkind, Hrow. now rewrite bool_decide_eq_true_2.
  - intros e k. case_bool_decide; [apply Hchoice|discriminate].
  - apply registry_NoDup.
Qed.

End Populated.

(** ** The engine: what the pipeline guarantees *)

Section Guarantees.
Import Schema Core.
Local Open Scope Qc_scope.

Lemma winner_row (cs : list FieldCandidate) (r : string) (c : FieldCandidate) :
  winner cs r = Some c -> row_id c = r.
Proof.
  intros Hw. pose proof (winner_resolves cs r) as H. rewrite Hw in H.
  now apply wins_elem in H.
Qed.

Lemma rows_populate (cs : list FieldCandidate) :
  rows (populate cs) = derive (fill_base (winners_by (winner (accepted cs)))).
Proof. exact (rows_populate_by _ _). Qed.

Lemma sum_rows_lookups (m : gmap string Qc) (rs : list string) :
  num (sum_rows m rs) = total (map (fun r => num (m !! r)) rs).
Proof. unfold sum_rows. rewrite num_sum_nullable, map_map. reflexivity. Qed.

Lemma sum_rows_None (m : gmap string Qc) (rs : list string) :
  sum_rows m rs = None <-> forall r, r ∈ rs -> m !! r = None.
Proof.
  unfold sum_rows. rewrite sum_nullable_None, list.Forall_forall. split.
  - intros H r Hr. apply H. apply list_elem_of_fmap. eauto.
  - intros H v [r [-> Hr]]%list_elem_of_fmap. auto.
Qed.

Lemma for_base_row_derived (c : FieldCandidate) :
  is_derived (row_id c) = true -> ~ for_base_row c.
Proof. unfold for_base_row. intros ->. cbn. tauto. Qed.

Lemma populate_CET1_total (cs : list FieldCandidate) :
  rows (populate cs) !! CET1_total
  = add_nullable (sum_rows (rows (populate cs)) (base_rows CET1))
      (sum_rows (rows (populate cs)) (base_rows CET1_Deductions)).
Proof. rewrite rows_populate, derive_CET1_total, !sum_rows_derive. reflexivity. Qed.

Lemma populate_base (cs : list FieldCandidate) (c : Category) (r : string) :
  r ∈ base_rows c -> rows (populate cs) !! r = winner (accepted cs) r ≫= value.
Proof.
  intros Hr. unfold populate.
  apply (populate_by_base (winner (accepted cs)) cs c r); [|exact Hr].
  intros r' c'. apply winner_row.
Qed.

Lemma base_candidates_drop_derived (cs1 cs2 : list FieldCandidate) (c : FieldCandidate) :
  is_derived (row_id c) = true ->
  base_candidates (cs1 ++ cs2) = base_candidates (cs1 ++ c :: cs2).
Proof.
  intros Hc. unfold base_candidates, well_formed.
  rewrite !filter_app. f_equal.
  rewrite (filter_cons _ c). destruct (decide _); [|reflexivity].
  rewrite filter_cons_False by now apply for_base_row_derived. reflexivity.
Qed.

(** C2.  In every populated record the CET1 total is the sum of the CET1
    base rows and the CET1 deduction rows, a null row counting as zero, and
    it is null exactly when all of them are; those rows hold the values of
    the winning candidates.  The record is the one the candidates for base
    rows alone give: a candidate for a derived row, the CET1 total among
    them, changes nothing. *)
Theorem CET1_total_recomputed (cs : list FieldCandidate) :
  num (rows (populate cs) !! CET1_total)
  = total (map (fun r => num (rows (populate cs) !! r)) (base_rows CET1))
    + total (map (fun r => num (rows (populate cs) !! r)) (base_rows CET1_Deductions))
  /\ (rows (populate cs) !! CET1_total = None
      <-> forall r, r ∈ base_rows CET1 ++ base_rows CET1_Deductions ->
                    rows (populate cs) !! r = None)
  /\ (forall r, r ∈ base_rows CET1 ++ base_rows CET1_Deductions ->
        rows (populate cs) !! r = winner (accepted cs) r ≫= value)
  /\ populate (filter for_base_row cs) = populate cs
  /\ (forall cs1 c cs2, cs = cs1 ++ c :: cs2 -> is_derived (row_id c) = true ->
        populate (cs1 ++ cs2) = populate cs).
Proof.
  split; [|split; [|split; [|split]]].
  - rewrite populate_CET1_total, num_add_nullable, !sum_rows_lookups. reflexivity.
  - rewrite populate_CET1_total, add_nullable_None, !sum_rows_None. split.
    + intros [H1 H2] r [Hr|Hr]%elem_of_app; auto.
    + intros H. split; intros r Hr; apply H, elem_of_app; auto.
  - intros r [Hr|Hr]%elem_of_app; eapply populate_base; exact Hr.
  - apply populate_base_candidates, base_candidates_filter.
  - intros cs1 c cs2 -> Hc.
    apply populate_base_candidates. now apply base_candidates_drop_derived.
Qed.

Lemma populate_Total_own_funds (cs : list FieldCandidate) :
  rows (populate cs) !! Total_own_funds
  = add_nullable (rows (populate cs) !! Tier1_total) (rows (populate cs) !! Tier2_total).
Proof.
  rewrite rows_populate, derive_Total_own_funds, derive_Tier1_total, derive_Tier2_total.
  reflexivity.
Qed.

Lemma Output_mk (t : TemplateRecord) (rs : list Response.ValidationResult)
    (tr : list (Response.AuditEntry (option Qc))) (ns : list MalformedCandidate) :
  template_data {| template_data := t; validation_results := rs;
                   audit_trail := tr; malformed_candidates := ns |} = t
  /\ validation_results {| template_data := t; validation_results := rs;
                           audit_trail := tr; malformed_candidates := ns |} = rs
  /\ audit_trail {| template_data := t; validation_results := rs;
                     audit_trail := tr; malformed_candidates := ns |} = tr.
Proof. repeat split. Qed.

Lemma pipeline_by_parts (w : Wording) (choice : string -> option FieldCandidate)
    (cs : list FieldCandidate) :
  template_data (pipeline_by w choice cs) = populate_by choice cs
  /\ validation_results (pipeline_by w choice cs) = validate w (populate_by choice cs)
  /\ audit_trail (pipeline_by w choice cs)
     = build_audit_trail w (populate_by choice cs) (winners_by choice)
         (validate w (populate_by choice cs)).
Proof. exact (Output_mk _ _ _ _). Qed.

Lemma evaluate_fields (w : Wording) (t : TemplateRecord) (rule : ValidationRule) :
  Response.rule_id (evaluate w t rule) = rule_id rule
  /\ Response.passed (evaluate w t rule) = predicate rule t
  /\ Response.severity (evaluate w t rule) = severity_name (severity rule).
Proof. repeat split. Qed.

Lemma R_TOTAL_CONSISTENCY_predicate (t : TemplateRecord) :
  predicate R_TOTAL_CONSISTENCY t
  = within_epsilon (num (rows t !! Total_own_funds))
      (num (rows t !! Tier1_total) + num (rows t !! Tier2_total)).
Proof. reflexivity. Qed.

Lemma rule_ids :
  map rule_id rules
  = ["R-REQUIRED"; "R-CET1-CONSISTENCY"; "R-TOTAL-CONSISTENCY"; "R-DEDUCTION-SIGN";
     "R-NONNEGATIVE-BASE"].
Proof. reflexivity. Qed.

Lemma populate_Tier1_total (cs : list FieldCandidate) :
  rows (populate cs) !! Tier1_total
  = add_nullable (rows (populate cs) !! CET1_total)
      (sum_rows (rows (populate cs)) (base_rows AT1)).
Proof.
  rewrite rows_populate, derive_Tier1_total, derive_CET1_total, sum_rows_derive.
  reflexivity.
Qed.

Lemma populate_Tier2_total (cs : list FieldCandidate) :
  rows (populate cs) !! Tier2_total = sum_rows (rows (populate cs)) (base_rows Tier2).
Proof. rewrite rows_populate, derive_Tier2_total, sum_rows_derive. reflexivity. Qed.

Lemma total_app (l1 l2 : list Qc) : total (l1 ++ l2) = total l1 + total l2.
Proof.
  induction l1 as [|x l1 IH].
  - change (total l2 = 0 + total l2). ring.
  - change (x + total (l1 ++ l2) = x + total l1 + total l2). rewrite IH. ring.
Qed.

Lemma capital_rows_base (r : string) :
  r ∈ capital_rows ->
  exists c : Category, r ∈ base_rows c.
Proof.
  unfold capital_rows. rewrite !elem_of_app.
  intros [H|[H|[H|H]]]; eauto.
Qed.

(** The rule passes exactly when the two numbers lie within the tolerance
    of each other. *)
Lemma within_epsilon_spec (x y : Qc) :
  within_epsilon x y = true <-> x - y <= epsilon /\ y - x <= epsilon.
Proof.
  unfold within_epsilon. rewrite andb_true_iff, !bool_decide_eq_true. reflexivity.
Qed.

(** C3.  In every populated record the total own funds are Tier 1 plus
    Tier 2: Tier 1 is the CET1 total plus the AT1 rows, Tier 2 the sum of
    the Tier 2 rows, the base rows hold the values of the winning
    candidates, and the total own funds are the sum of all the base rows,
    null only when every one of them is.  A null row counting as zero, the
    total and Tier 1 plus Tier 2 are the same number, so they agree within
    the tolerance: the result of R-TOTAL-CONSISTENCY is among the results
    of the pipeline, it is an ERROR rule, and it has passed.  The rule
    itself passes on a record exactly when the two numbers differ by no
    more than the tolerance. *)
Theorem Total_own_funds_consistent (w : Wording) (cs : list FieldCandidate) :
  rows (populate cs) !! Total_own_funds
  = add_nullable (rows (populate cs) !! Tier1_total) (rows (populate cs) !! Tier2_total)
  /\ rows (populate cs) !! Tier1_total
     = add_nullable (rows (populate cs) !! CET1_total)
         (sum_rows (rows (populate cs)) (base_rows AT1))
  /\ rows (populate cs) !! Tier2_total = sum_rows (rows (populate cs)) (base_rows Tier2)
  /\ (forall r, r ∈ capital_rows ->
        rows (populate cs) !! r = winner (accepted cs) r ≫= value)
  /\ num (rows (populate cs) !! Total_own_funds)
     = total (map (fun r => num (rows (populate cs) !! r)) capital_rows)
  /\ (rows (populate cs) !! Total_own_funds = None
      <-> forall r, r ∈ capital_rows -> rows (populate cs) !! r = None)
  /\ num (rows (populate cs) !! Total_own_funds)
     = num (rows (populate cs) !! Tier1_total) + num (rows (populate cs) !! Tier2_total)
  /\ within_epsilon (num (rows (populate cs) !! Total_own_funds))
       (num (rows (populate cs) !! Tier1_total) + num (rows (populate cs) !! Tier2_total))
     = true
  /\ evaluate w (populate cs) R_TOTAL_CONSISTENCY ∈ validation_results (pipeline w cs)
  /\ (forall res : Response.ValidationResult,
        res ∈ validation_results (pipeline w cs) ->
        Response.rule_id res = "R-TOTAL-CONSISTENCY" ->
        Response.passed res = true /\ Response.severity res = "ERROR")
  /\ (forall t : TemplateRecord,
        predicate R_TOTAL_CONSISTENCY t = true
        <-> num (rows t !! Total_own_funds)
            - (num (rows t !! Tier1_total) + num (rows t !! Tier2_total)) <= epsilon
            /\ num (rows t !! Tier1_total) + num (rows t !! Tier2_total)
               - num (rows t !! Total_own_funds) <= epsilon).
Proof.
  assert (Hnum : num (rows (populate cs) !! Total_own_funds)
                 = num (rows (populate cs) !! Tier1_total)
                   + num (rows (populate cs) !! Tier2_total)).
  { rewrite populate_Total_own_funds. apply num_add_nullable. }
  assert (Hok : predicate R_TOTAL_CONSISTENCY (populate cs) = true).
  { rewrite R_TOTAL_CONSISTENCY_predicate, Hnum. apply within_epsilon_refl. }
  assert (Hres : validation_results (pipeline w cs) = validate w (populate cs)).
  { unfold pipeline, populate. apply pipeline_by_parts. }
  split; [apply populate_Total_own_funds|].
  split; [apply populate_Tier1_total|].
  split; [apply populate_Tier2_total|].
  split.
  { intros r [c Hr]%capital_rows_base. eapply populate_base, Hr. }
  split.
  { rewrite Hnum, populate_Tier1_total, populate_Tier2_total, populate_CET1_total.
    rewrite !num_add_nullable, !sum_rows_lookups.
    unfold capital_rows. rewrite !map_app, !total_app. ring. }
  split.
  { rewrite populate_Total_own_funds, populate_Tier1_total, populate_Tier2_total,
      populate_CET1_total.
    rewrite !add_nullable_None, !sum_rows_None. unfold capital_rows. split.
    - intros [[[H1 H2] H3] H4] r. rewrite !elem_of_app. intros [H|[H|[H|H]]]; auto.
    - intros H. repeat split; intros r Hr; apply H; rewrite !elem_of_app; auto. }
  split; [exact Hnum|].
  split; [rewrite Hnum; apply within_epsilon_refl|].
  rewrite Hres. unfold validate. split; [|split].
  - apply list_elem_of_fmap. exists R_TOTAL_CONSISTENCY. split; [reflexivity|].
    unfold rules. rewrite !elem_of_cons. auto.
  - intros res [rule [-> Hrule]]%list_elem_of_fmap Hid.
    destruct (evaluate_fields w (populate cs) rule) as (Eid & Epass & Esev).
    rewrite Eid in Hid. rewrite Epass, Esev.
    unfold rules in Hrule. rewrite !elem_of_cons in Hrule.
    destruct Hrule as [->|[->|[->|[->|[->|Hnil]]]]];
      try discriminate Hid; [|now apply elem_of_nil in Hnil].
    split; [exact Hok|reflexivity].
  - intros t. rewrite R_TOTAL_CONSISTENCY_predicate. apply within_epsilon_spec.
Qed.

(** The spec's example: 1,000,000,000 of CET1 instruments, 200,000,000 of
    retained earnings, 50,000,000 of AT1 and 100,000,000 of Tier 2 give
    Tier 1 of 1,250,000,000, Tier 2 of 100,000,000 and total own funds of
    1,350,000,000, and the rule has passed. *)
Lemma Total_own_funds_consistent_witness :
  rows (populate own_funds_example) !! Tier1_total = Some (amount_of 1250000000)
  /\ rows (populate own_funds_example) !! Tier2_total = Some (amount_of 100000000)
  /\ rows (populate own_funds_example) !! Total_own_funds = Some (amount_of 1350000000)
  /\ exists res : Response.ValidationResult,
       res ∈ validation_results (pipeline plain_wording own_funds_example)
       /\ Response.rule_id res = "R-TOTAL-CONSISTENCY" /\ Response.passed res = true.
Proof.
  destruct (Total_own_funds_consistent plain_wording own_funds_example)
    as (Htotal & Htier1 & Htier2 & _ & _ & _ & _ & _ & Hin & Hall & _).
  assert (H2 : rows (populate own_funds_example) !! Tier2_total
               = Some (amount_of 100000000)).
  { rewrite Htier2. vm_compute. reflexivity. }
  assert (H1 : rows (populate own_funds_example) !! Tier1_total
               = Some (amount_of 1250000000)).
  { rewrite Htier1. vm_compute. reflexivity. }
  split; [exact H1|]. split; [exact H2|]. split.
  - rewrite Htotal, H1, H2. vm_compute. reflexivity.
  - exists (evaluate plain_wording (populate own_funds_example) R_TOTAL_CONSISTENCY).
    split; [exact Hin|]. split; [reflexivity|]. exact (proj1 (Hall _ Hin eq_refl)).
Defined.

(** The rule tells records apart: it fails on a total that is off by one
    unit and passes on one that is off by half the tolerance. *)
Lemma R_TOTAL_CONSISTENCY_detects :
  predicate R_TOTAL_CONSISTENCY (record_of [("row_400", 10 # 1); ("row_600", 5 # 1);
                                            ("row_700", 16 # 1)]) = false
  /\ predicate R_TOTAL_CONSISTENCY (record_of [("row_400", 10 # 1); ("row_600", 5 # 1);
                                               ("row_700", 3001 # 200)]) = true
  /\ predicate R_TOTAL_CONSISTENCY (record_of [("row_400", 10 # 1); ("row_600", 5 # 1);
                                               ("row_700", 15 # 1)]) = true.
Proof. vm_compute. repeat split. Qed.

Lemma CET1_total_recomputed_witness :
  populate [candidate "row_010" 1000 "CRR 26" 0.9; candidate "row_080" (-50) "CRR 36" 0.9]
  = populate [candidate "row_010" 1000 "CRR 26" 0.9; candidate "row_200" 7 "" 1;
              candidate "row_080" (-50) "CRR 36" 0.9].
Proof.
  apply (proj2 (proj2 (proj2 (proj2 (CET1_total_recomputed
           [candidate "row_010" 1000 "CRR 26" 0.9; candidate "row_200" 7 "" 1;
            candidate "row_080" (-50) "CRR 36" 0.9]))))
           [candidate "row_010" 1000 "CRR 26" 0.9] (candidate "row_200" 7 "" 1)
           [candidate "row_080" (-50) "CRR 36" 0.9]); reflexivity.
Defined.

(** *** The audit trail *)

Lemma row_entry_field_row (w : Wording) (t : TemplateRecord) (ws : list FieldCandidate)
    (e : SchemaEntry) (a : Response.AuditEntry (option Qc)) :
  row_entry w t ws e = Some a ->
  Response.field_row a = Schema.row_id e
  /\ Response.value a = rows t !! Schema.row_id e.
Proof.
  unfold row_entry. destruct (rows t !! Schema.row_id e) as [v|]; [|discriminate].
  intros [= <-]. destruct (kind e); split; reflexivity.
Qed.

Lemma row_entry_Some (w : Wording) (t : TemplateRecord) (ws : list FieldCandidate)
    (e : SchemaEntry) :
  is_Some (row_entry w t ws e) <-> is_Some (rows t !! Schema.row_id e).
Proof.
  unfold row_entry. destruct (rows t !! Schema.row_id e); split; intros [x Hx];
    try discriminate; eauto.
Qed.

Lemma omap_rows (w : Wording) (t : TemplateRecord) (ws : list FieldCandidate)
    (l : list SchemaEntry) :
  map Response.field_row (omap (row_entry w t ws) l)
  = filter (fun r => bool_decide (is_Some (rows t !! r))) (map Schema.row_id l).
Proof.
  induction l as [|e l IH]; [reflexivity|].
  cbn [omap list_omap map]. rewrite filter_cons.
  pose proof (row_entry_Some w t ws e) as Hsome.
  destruct (row_entry w t ws e) as [a|] eqn:Ha.
  - apply row_entry_field_row in Ha as [Hrow _].
    rewrite decide_True by (apply bool_decide_pack, Hsome; eauto).
    cbn [map]. now rewrite Hrow, IH.
  - rewrite decide_False; [exact IH|].
    intros H%bool_decide_unpack. apply Hsome in H as [x Hx]. discriminate.
Qed.

Lemma row_entries_rows (w : Wording) (t : TemplateRecord) (ws : list FieldCandidate) :
  map Response.field_row (row_entries w t ws) = populated_rows t.
Proof. apply omap_rows. Qed.

Lemma row_entries_values (w : Wording) (t : TemplateRecord) (ws : list FieldCandidate) :
  Forall (fun a => Response.value a = rows t !! Response.field_row a)
         (row_entries w t ws).
Proof.
  unfold row_entries. apply list.Forall_forall. intros a Ha.
  apply list_elem_of_omap in Ha as (e & _ & Ha).
  apply row_entry_field_row in Ha as [-> ->]. reflexivity.
Qed.

Lemma OVERALL_not_a_row : "OVERALL" ∉ map Schema.row_id registry.
Proof. apply (bool_decide_unpack _). vm_compute. reflexivity. Qed.

Lemma row_entries_not_overall (w : Wording) (t : TemplateRecord) (ws : list FieldCandidate) :
  Forall (fun a => Response.field_row a <> "OVERALL") (row_entries w t ws).
Proof.
  apply list.Forall_forall. intros a Ha Heq.
  apply list_elem_of_In, (in_map Response.field_row) in Ha.
  rewrite (row_entries_rows w t ws), Heq in Ha.
  apply list_elem_of_In, list_elem_of_filter in Ha as [_ Hin].
  exact (OVERALL_not_a_row Hin).
Qed.

Lemma populated_rows_NoDup (t : TemplateRecord) : NoDup (populated_rows t).
Proof. apply NoDup_filter, registry_NoDup. Qed.

Lemma last_snoc_Some {A : Type} (l : list A) (x : A) : list.last (l ++ [x]) = Some x.
Proof. apply last_snoc. Qed.

Lemma AuditTrail_nonempty {V : Type} (l : list (Response.AuditEntry V)) :
  l <> [] ->
  AuditTrail.AuditTrail (Some l)
  = AuditTrail.Trail (AuditTrail.fieldEntries l) (AuditTrail.overallEntry l).
Proof. destruct l; [contradiction|reflexivity]. Qed.

(** C4.  The audit trail of a query has one entry per non-null row of the
    record, in canonical row order, with the row's value, followed by the
    one OVERALL entry.  The component's field entries are the former, the
    summary it finds is the latter, the last entry of the trail, and the
    two together are the whole trail. *)
Theorem audit_trail_shape (w : Wording) (cs : list FieldCandidate) :
  let t := template_data (pipeline w cs) in
  let trail := audit_trail (pipeline w cs) in
  map Response.field_row (AuditTrail.fieldEntries trail) = populated_rows t
  /\ NoDup (populated_rows t)
  /\ (forall r, r ∈ populated_rows t <-> is_Some (rows t !! r))
  /\ Forall (fun a => Response.value a = rows t !! Response.field_row a)
            (AuditTrail.fieldEntries trail)
  /\ length (filter AuditTrail.is_overall trail) = 1%nat
  /\ is_Some (AuditTrail.overallEntry trail)
  /\ AuditTrail.overallEntry trail = list.last trail
  /\ trail = AuditTrail.fieldEntries trail ++ option_list (AuditTrail.overallEntry trail)
  /\ AuditTrail.AuditTrail (Some trail)
     = AuditTrail.Trail (AuditTrail.fieldEntries trail) (list.last trail).
Proof.
  intros t trail.
  assert (Ht : t = populate cs).
  { unfold t, pipeline, populate. apply pipeline_by_parts. }
  set (es := row_entries w t (winners_by (winner (accepted cs)))).
  set (o := overall_entry w t (validate w t) es).
  assert (Htrail : trail = es ++ [o]).
  { unfold trail, es, o. rewrite Ht. unfold pipeline, populate.
    rewrite (proj2 (proj2 (pipeline_by_parts w _ cs))). reflexivity. }
  assert (Hes : Forall (fun a => Response.field_row a <> "OVERALL") es)
    by apply row_entries_not_overall.
  assert (Ho : Response.field_row o = "OVERALL") by reflexivity.
  rewrite Htrail.
  rewrite (AuditTrail_nonempty (es ++ [o])) by (destruct es; discriminate).
  rewrite (fieldEntries_body es o Hes Ho), (overallEntry_last es o Hes Ho),
    (overall_count es o Hes Ho), last_snoc.
  split; [apply row_entries_rows|]. split; [apply populated_rows_NoDup|].
  split.
  { intros r. unfold populated_rows. rewrite list_elem_of_filter, bool_decide_spec.
    split; [tauto|]. intros Hr. split; [exact Hr|].
    rewrite Ht in Hr. unfold populate in Hr.
    apply populate_by_known in Hr; [exact Hr|]. intros r' c'. apply winner_row. }
  split; [apply row_entries_values|].
  split; [reflexivity|]. split; [eexists; reflexivity|].
  split; [reflexivity|]. split; reflexivity.
Qed.

Lemma audit_trail_shape_witness :
  map Response.field_row
    (AuditTrail.fieldEntries
       (audit_trail
          (pipeline
             plain_wording
             [candidate "row_500" 100 "CRR 62" 0.5])))
  = ["row_500"; "row_600"; "row_700"].
Proof.
  rewrite (proj1 (audit_trail_shape _ [candidate "row_500" 100 "CRR 62" 0.5])).
  vm_compute. reflexivity.
Defined.

(** *** The rows of the schema *)

Lemma registry_rows : map Schema.row_id registry = TemplateViewer.row_ids.
Proof. reflexivity. Qed.

Lemma is_known_spec (r : string) : is_known r = true <-> r ∈ TemplateViewer.row_ids.
Proof.
  rewrite <- registry_rows. unfold is_known, lookup_row.
  destruct (List.find _ registry) as [e|] eqn:Hfind.
  - apply find_row_elem in Hfind as [He <-]. split; [|reflexivity].
    intros _. apply list_elem_of_fmap. eauto.
  - apply find_row_None in Hfind. split; [discriminate|contradiction].
Qed.

Lemma malformed_unknown (c : FieldCandidate) :
  malformed c = Some UnknownRow <-> Core.row_id c ∉ TemplateViewer.row_ids.
Proof.
  rewrite <- is_known_spec. unfold malformed.
  destruct (is_known (Core.row_id c)); cbn.
  - destruct (value c); split; intros H; try discriminate H; now destruct H.
  - split; [discriminate|reflexivity].
Qed.

Lemma accepted_elem (cs : list FieldCandidate) (c : FieldCandidate) :
  c ∈ accepted cs -> c ∈ cs /\ malformed c = None.
Proof.
  unfold accepted, base_candidates, well_formed.
  intros [_ [_ [Hm Hc]%list_elem_of_filter]%list_elem_of_filter]%list_elem_of_filter.
  split; [exact Hc|]. now apply bool_decide_unpack in Hm.
Qed.

Lemma Output_malformed (t : TemplateRecord) (rs : list Response.ValidationResult)
    (tr : list (Response.AuditEntry (option Qc))) (ns : list MalformedCandidate) :
  malformed_candidates {| template_data := t; validation_results := rs;
                          audit_trail := tr; malformed_candidates := ns |} = ns.
Proof. reflexivity. Qed.

Lemma pipeline_notes (w : Wording) (cs : list FieldCandidate) :
  malformed_candidates (pipeline w cs) = notes cs.
Proof. exact (Output_malformed _ _ _ _). Qed.

Lemma pipeline_record (w : Wording) (cs : list FieldCandidate) :
  template_data (pipeline w cs) = populate cs.
Proof. unfold pipeline, populate. apply pipeline_by_parts. Qed.

Lemma pipeline_cards (w : Wording) (cs : list FieldCandidate) :
  AuditTrail.fieldEntries (audit_trail (pipeline w cs))
  = row_entries w (populate cs) (winners_by (winner (accepted cs))).
Proof.
  unfold pipeline. rewrite (proj2 (proj2 (pipeline_by_parts w _ cs))).
  fold (populate cs). unfold build_audit_trail. cbv zeta.
  apply fieldEntries_body; [apply row_entries_not_overall|reflexivity].
Qed.

Lemma rules_inspect_rows :
  Forall (fun rule => Forall (fun r => r ∈ TemplateViewer.row_ids) (inspects rule)) rules.
Proof. apply (bool_decide_unpack _). vm_compute. reflexivity. Qed.

Lemma accepted_rows (cs : list FieldCandidate) (c : FieldCandidate) :
  c ∈ accepted cs -> Core.row_id c ∈ TemplateViewer.row_ids.
Proof.
  intros [_ Hm]%accepted_elem. apply is_known_spec.
  unfold malformed in Hm. destruct (is_known (Core.row_id c)); [reflexivity|].
  discriminate Hm.
Qed.

Lemma unknown_reported (cs : list FieldCandidate) (c : FieldCandidate) :
  c ∈ cs ->
  (Core.row_id c ∉ TemplateViewer.row_ids
   <-> {| why := UnknownRow; rejected := c |} ∈ notes cs).
Proof.
  intros Hc. rewrite <- malformed_unknown.
  unfold notes. rewrite list_elem_of_omap. split.
  - intros Hm. exists c. split; [exact Hc|]. rewrite Hm. reflexivity.
  - intros (c' & _ & Hnote). destruct (malformed c') as [m|] eqn:Hm'.
    + injection Hnote as -> ->. exact Hm'.
    + destruct (_ && _); discriminate Hnote.
Qed.

Lemma record_rows (cs : list FieldCandidate) (r : string) :
  is_Some (rows (populate cs) !! r) -> r ∈ TemplateViewer.row_ids.
Proof.
  rewrite <- registry_rows. unfold populate.
  apply populate_by_known. intros r' c'. apply winner_row.
Qed.

Lemma displayed_rows (data : JS.object) (e : string * TemplateViewer.FieldMeta) :
  e ∈ TemplateViewer.displayRows data -> e.1 ∈ TemplateViewer.row_ids.
Proof.
  intros He. rewrite displayRows_filter in He.
  apply list_elem_of_filter in He as [_ He].
  unfold TemplateViewer.row_ids. apply list_elem_of_fmap. eauto.
Qed.

Lemma row_entries_known (w : Wording) (t : TemplateRecord) (ws : list FieldCandidate)
    (a : Response.AuditEntry (option Qc)) :
  a ∈ row_entries w t ws -> Response.field_row a ∈ TemplateViewer.row_ids.
Proof.
  intros Ha. apply list_elem_of_In, (in_map Response.field_row) in Ha.
  rewrite row_entries_rows in Ha. rewrite <- registry_rows.
  apply list_elem_of_In in Ha. unfold populated_rows in Ha.
  apply list_elem_of_filter in Ha as [_ Ha]. exact Ha.
Qed.

Lemma validate_rows (w : Wording) (t : TemplateRecord) (res : Response.ValidationResult)
    (f : string) :
  res ∈ validate w t -> f ∈ Response.affected_fields res -> f ∈ TemplateViewer.row_ids.
Proof.
  unfold validate. intros [rule [-> Hrule]]%list_elem_of_fmap Hf.
  pose proof rules_inspect_rows as Hall. rewrite list.Forall_forall in Hall.
  specialize (Hall rule Hrule). rewrite list.Forall_forall in Hall.
  apply Hall. exact Hf.
Qed.

(** C1, as the code has it.  [FIELD_META] enumerates 21 rows, each once:
    the identifiers listed here.  The Populator accepts a candidate only
    for one of them: a candidate for any other row id is reported as a
    malformed candidate with an unknown row, and only such candidates are;
    the record has no row outside the 21.  Every row the system displays
    is one of them: the rows of the table of TemplateViewer, for any data,
    and, for what the pipeline hands over, the cards of AuditTrail and the
    affected fields ValidationPanel lists. *)
Theorem FIELD_META_rows (w : Wording) (cs : list FieldCandidate) (data : JS.object) :
  length TemplateViewer.row_ids = 21%nat
  /\ NoDup TemplateViewer.row_ids
  /\ TemplateViewer.row_ids =
       [ "row_010"; "row_020"; "row_030"; "row_040"; "row_050"; "row_060";
         "row_070"; "row_080"; "row_090"; "row_095"; "row_100"; "row_200";
         "row_300"; "row_310"; "row_320"; "row_400"; "row_500"; "row_510";
         "row_520"; "row_600"; "row_700" ]
  /\ (forall c, c ∈ accepted cs -> Core.row_id c ∈ TemplateViewer.row_ids)
  /\ (forall c, c ∈ cs ->
        (Core.row_id c ∉ TemplateViewer.row_ids
         <-> {| why := UnknownRow; rejected := c |} ∈ malformed_candidates (pipeline w cs)))
  /\ (forall r, is_Some (rows (template_data (pipeline w cs)) !! r) ->
        r ∈ TemplateViewer.row_ids)
  /\ (forall e, e ∈ TemplateViewer.displayRows data -> e.1 ∈ TemplateViewer.row_ids)
  /\ (forall a, a ∈ AuditTrail.fieldEntries (audit_trail (pipeline w cs)) ->
        Response.field_row a ∈ TemplateViewer.row_ids)
  /\ (forall res f, res ∈ validation_results (pipeline w cs) ->
        f ∈ Response.affected_fields res -> f ∈ TemplateViewer.row_ids).
Proof.
  split; [reflexivity|]. split; [apply row_ids_NoDup|]. split; [reflexivity|].
  split; [apply accepted_rows|].
  split; [intros c Hc; rewrite pipeline_notes; apply unknown_reported, Hc|].
  split; [intros r; rewrite pipeline_record; apply record_rows|].
  split; [apply displayed_rows|].
  split; [intros a; rewrite pipeline_cards; apply row_entries_known|].
  intros res f. unfold pipeline.
  rewrite (proj1 (proj2 (pipeline_by_parts w _ cs))). apply validate_rows.
Qed.

(** A candidate for a row that is not in the table is reported, and is not
    among the accepted ones. *)
Lemma FIELD_META_rows_witness :
  {| why := UnknownRow; rejected := candidate "row_999" 5 "CRR 26" 0.9 |}
    ∈ malformed_candidates
        (pipeline plain_wording
           [candidate "row_010" 1000 "CRR 26" 0.9; candidate "row_999" 5 "CRR 26" 0.9])
  /\ candidate "row_999" 5 "CRR 26" 0.9
       ∉ accepted [candidate "row_010" 1000 "CRR 26" 0.9;
                   candidate "row_999" 5 "CRR 26" 0.9].
Proof.
  destruct (FIELD_META_rows plain_wording
              [candidate "row_010" 1000 "CRR 26" 0.9; candidate "row_999" 5 "CRR 26" 0.9]
              []) as (_ & _ & _ & Hacc & Hnote & _).
  assert (Hrow : Core.row_id (candidate "row_999" 5 "CRR 26" 0.9)
                 ∉ TemplateViewer.row_ids).
  { apply (bool_decide_unpack _). vm_compute. reflexivity. }
  split.
  - apply Hnote; [right; left|exact Hrow].
  - intros Hin. exact (Hrow (Hacc _ Hin)).
Defined.

End Guarantees.

(** ** Further properties of the components *)

Section PanelGroups.
Import Response ValidationPanel.


Lemma group_of (r : ValidationResult) :
  (is_error r /\ ~ is_warning r /\ ~ passed r /\ ~ is_unlisted r)
  \/ (~ is_error r /\ is_warning r /\ ~ passed r /\ ~ is_unlisted r)
  \/ (~ is_error r /\ ~ is_warning r /\ passed r /\ ~ is_unlisted r)
  \/ (~ is_error r /\ ~ is_warning r /\ ~ passed r /\ is_unlisted r).
Proof.
  unfold is_error, is_warning, is_unlisted.
  destruct (passed r); cbn; [tauto|].
  destruct (String.eqb_spec (severity r) "ERROR") as [->|He]; cbn; [tauto|].
  destruct (String.eqb (severity r) "WARNING"); cbn; tauto.
Qed.

Lemma four_groups (results : list ValidationResult) :
  errors results ++ warnings results ++ passed_rules results
    ++ filter is_unlisted results ≡ₚ results.
Proof.
  unfold errors, warnings, passed_rules.
  induction results as [|r results IH]; [reflexivity|].
  rewrite !filter_cons.
  destruct (group_of r) as [H|[H|[H|H]]]; destruct H as (H1 & H2 & H3 & H4);
    repeat match goal with |- context [decide ?P] => destruct (decide P); try tauto end.
  all: cbn [app]; symmetry; rewrite ?app_assoc; try apply Permutation_cons_app;
    try apply perm_skip; rewrite <- ?app_assoc; symmetry; exact IH.
Qed.

(** X1.  The results split four ways: blocking errors, warnings, passed
    rules, and failed results of another severity, which the panel lists
    nowhere.  So the three counters add up to the number of results
    exactly when every failed result is an ERROR or a WARNING. *)
Theorem ValidationPanel_groups (results : list ValidationResult) :
  errors results ++ warnings results ++ passed_rules results
    ++ filter is_unlisted results ≡ₚ results
  /\ (length (errors results) + length (warnings results)
      + length (passed_rules results) + length (filter is_unlisted results)
      = length results)%nat
  /\ ((length (errors results) + length (warnings results)
       + length (passed_rules results) = length results)%nat
      <-> forall r, r ∈ results -> passed r = false ->
            severity r = "ERROR" \/ severity r = "WARNING")
  /\ (forall r, r ∈ results -> is_unlisted r ->
        (r ∉ errors results) /\ (r ∉ warnings results) /\ (r ∉ passed_rules results)).
Proof.
  pose proof (four_groups results) as Hperm.
  assert (Hlen : (length (errors results) + length (warnings results)
                  + length (passed_rules results) + length (filter is_unlisted results)
                  = length results)%nat).
  { rewrite <- Hperm at 5. rewrite !length_app. lia. }
  split; [exact Hperm|]. split; [exact Hlen|]. split; [|].
  - split.
    + intros Hsum r Hr Hp.
      assert (Hnil : filter is_unlisted results = []).
      { apply length_zero_iff_nil. lia. }
      destruct (String.eqb_spec (severity r) "ERROR") as [He|He]; [now left|].
      destruct (String.eqb_spec (severity r) "WARNING") as [Hw|Hw]; [now right|].
      exfalso. assert (Hin : r ∈ filter is_unlisted results).
      { apply list_elem_of_filter. split; [|exact Hr]. unfold is_unlisted.
        rewrite Hp. cbn.
        destruct (String.eqb_spec (severity r) "ERROR"); [contradiction|].
        destruct (String.eqb_spec (severity r) "WARNING"); [contradiction|]. exact I. }
      rewrite Hnil in Hin. now apply elem_of_nil in Hin.
    + intros Hall.
      assert (Hnil : filter is_unlisted results = []).
      { destruct (filter is_unlisted results) as [|r l] eqn:E; [reflexivity|].
        assert (Hin : r ∈ filter is_unlisted results) by (rewrite E; left).
        apply list_elem_of_filter in Hin as [Hu Hr]. exfalso.
        unfold is_unlisted in Hu.
        destruct (passed r) eqn:Hp; [exact Hu|].
        destruct (Hall r Hr Hp) as [Hs|Hs]; rewrite Hs in Hu; exact Hu. }
      rewrite Hnil in Hlen. cbn in Hlen. lia.
  - intros r Hr Hu. unfold errors, warnings, passed_rules.
    rewrite !list_elem_of_filter.
    destruct (group_of r) as [H|[H|[H|H]]]; tauto.
Qed.


Lemma ValidationPanel_groups_witness :
  (info_result ∉ errors [info_result])
  /\ (info_result ∉ warnings [info_result])
  /\ (info_result ∉ passed_rules [info_result]).
Proof.
  apply (proj2 (proj2 (proj2 (ValidationPanel_groups [info_result])))).
  - apply list_elem_of_singleton. reflexivity.
  - exact I.
Defined.

End PanelGroups.

Section TrailAnywhere.
Import Response AuditTrail.
Context {V : Type}.

Lemma fieldEntries_all (l : list (AuditEntry V)) :
  Forall (fun e => field_row e <> "OVERALL") l -> fieldEntries l = l.
Proof.
  induction 1 as [|x l Hx _ IH]; [reflexivity|].
  unfold fieldEntries in *. rewrite filter_cons_True; [now rewrite IH|].
  unfold is_field. now destruct (String.eqb_spec (field_row x) "OVERALL").
Qed.

Lemma overallEntry_none (l : list (AuditEntry V)) :
  Forall (fun e => field_row e <> "OVERALL") l -> overallEntry l = None.
Proof.
  induction 1 as [|x l Hx _ IH]; [reflexivity|].
  unfold overallEntry, JS.find in *. cbn. unfold is_overall at 1.
  now destruct (String.eqb_spec (field_row x) "OVERALL").
Qed.


Lemma partition_lengths (l : list (AuditEntry V)) :
  (length (fieldEntries l) + length (filter is_overall l) = length l)%nat.
Proof.
  unfold fieldEntries. induction l as [|x l IH]; [reflexivity|].
  rewrite !filter_cons. unfold is_field, is_overall in *.
  destruct (String.eqb (field_row x) "OVERALL"); cbn;
    repeat match goal with |- context [decide ?P] => destruct (decide P); try tauto end;
    cbn; lia.
Qed.


(** X3.  Every entry is a card or an OVERALL entry, never both; the
    component shows a summary exactly when some entry is OVERALL; and with
    no OVERALL entry every entry is a card. *)
Theorem AuditTrail_cards_and_summary (l : list (AuditEntry V)) :
  (length (fieldEntries l) + length (filter is_overall l) = length l)%nat
  /\ (is_Some (overallEntry l) <-> exists e, e ∈ l /\ field_row e = "OVERALL")
  /\ (Forall (fun e => field_row e <> "OVERALL") l ->
      fieldEntries l = l /\ overallEntry l = None).
Proof.
  split; [apply partition_lengths|]. split.
  - unfold overallEntry, JS.find. split.
    + intros [e He]. apply find_some in He as [Hin Ho].
      exists e. split; [now apply list_elem_of_In|].
      unfold is_overall in Ho. now apply String.eqb_eq.
    + intros (e & Hin & Ho). destruct (List.find is_overall l) as [x|] eqn:Hf; [eauto|].
      apply list_elem_of_In in Hin. pose proof (find_none _ _ Hf e Hin) as Hn.
      unfold is_overall in Hn. rewrite Ho in Hn. discriminate.
  - intros Hall. split; [now apply fieldEntries_all|now apply overallEntry_none].
Qed.

End TrailAnywhere.

Section QueryEffects.
Import App AppView.
Context {B D : Type} (JSON_stringify : json -> B) (ToBoolean : D -> bool).

Lemma succeeded_or_failed (answer : fetched D) :
  (exists data, succeeded answer = Some data /\ failure_message answer = None)
  \/ (exists m, succeeded answer = None /\ failure_message answer = Some m).
Proof.
  destruct answer as [m|[|] st [m|d]]; cbn; eauto.
Qed.

(** A query with nothing in between is its beginning followed by the
    arrival of its answer. *)
Lemma handleQuery_begin_settle (fetch : Request B -> fetched D)
    (question scenario : JS.ustring) (s : state D) :
  handleQuery JSON_stringify fetch question scenario s
  = ([query_request JSON_stringify question scenario],
     settle (fetch (query_request JSON_stringify question scenario)) (begin s)).
Proof. reflexivity. Qed.

(** X4.  When the answer to a query arrives, is [ok] and has a body that
    parses, the component stops loading, takes the data as result and
    makes the template tab active, whatever state it is in; the error is
    left as it is at that moment.  The error was cleared when the query
    began, so a query with nothing in between ends with no error.  The
    results card then shows TemplateViewer under the tab buttons when the
    data is truthy, and the empty state when it is not. *)
Theorem handleQuery_success (answer : fetched D) (data : D) :
  succeeded answer = Some data ->
  (forall s : state D,
     settle answer s
     = {| loading := false; result := Some data; error := error s;
          activeTab := "template" |})
  /\ (forall (fetch : Request B -> fetched D) (question scenario : JS.ustring)
             (s : state D),
        fetch (query_request JSON_stringify question scenario) = answer ->
        snd (handleQuery JSON_stringify fetch question scenario s)
        = {| loading := false; result := Some data; error := None;
             activeTab := "template" |})
  /\ (forall s : state D,
        visible ToBoolean (settle answer s)
        = if ToBoolean data then TemplateTab data else NoResults)
  /\ (forall s : state D, error_card (settle answer s) = error_card s).
Proof.
  intros Hok. destruct answer as [m|[|] st [m|d]]; try discriminate Hok.
  injection Hok as ->. split; [reflexivity|]. split.
  - intros fetch question scenario s Hfetch.
    rewrite handleQuery_begin_settle, Hfetch. reflexivity.
  - split; [|reflexivity]. intros s. unfold visible. cbn.
    destruct (ToBoolean data); reflexivity.
Qed.

(** X5.  A query that fails, by a rejected fetch, a response that is not
    [ok] or a body that does not parse, leaves the component not loading,
    stores the message, and keeps the result and the active tab it had;
    the error card shows the message unless it is empty. *)
Theorem handleQuery_failure (fetch : Request B -> fetched D)
    (question scenario : JS.ustring) (s : state D) (m : string) :
  failure_message (fetch (query_request JSON_stringify question scenario)) = Some m ->
  snd (handleQuery JSON_stringify fetch question scenario s)
  = {| loading := false; result := result s; error := Some m; activeTab := activeTab s |}
  /\ error_card (snd (handleQuery JSON_stringify fetch question scenario s))
     = (if String.eqb m "" then None else Some m)
  /\ visible ToBoolean (snd (handleQuery JSON_stringify fetch question scenario s))
     = visible ToBoolean s.
Proof.
  intros Hm. unfold handleQuery. cbn [snd].
  destruct (fetch _) as [m'|[|] st [m'|d]]; cbn in Hm; try discriminate Hm;
    injection Hm as <-; repeat split.
Qed.

(** [Error: ] precedes the status text, so the card of a response that is
    not [ok] is never empty. *)
Lemma http_error_shown (st : string) (body : string + D) (s : state D)
    (question scenario : JS.ustring) :
  error_card (snd (handleQuery JSON_stringify (fun _ => Resolved false st body)
                     question scenario s))
  = Some ("Error: " ++ st)%string.
Proof. reflexivity. Qed.

Lemma settle_fields (answer : fetched D) (s : state D) :
  loading (settle answer s) = false
  /\ (activeTab (settle answer s) = activeTab s
      \/ activeTab (settle answer s) = "template").
Proof. destruct answer as [m|[|] st [m|d]]; cbn; auto. Qed.

Lemma step_invariant (p : page) (e : event) :
  (in_flight p <= 1)%nat ->
  loading (app p) = (in_flight p =? 1)%nat ->
  (loading (app p) = true -> error (app p) = None) ->
  activeTab (app p) ∈ tabs ->
  (in_flight (step ToBoolean p e) <= 1)%nat
  /\ loading (app (step ToBoolean p e)) = (in_flight (step ToBoolean p e) =? 1)%nat
  /\ (loading (app (step ToBoolean p e)) = true -> error (app (step ToBoolean p e)) = None)
  /\ activeTab (app (step ToBoolean p e)) ∈ tabs.
Proof.
  intros Hle Hload Herr Htab.
  destruct e as [q|sc| |answer|tab]; cbn [step].
  - cbn. auto.
  - cbn. auto.
  - unfold QueryInterface.disabled, QueryInterface.handleSubmit.
    destruct (loading (app p)) eqn:Hl; cbn [orb]; [rewrite Hl; auto|].
    destruct (JS.truthy _); cbn [negb]; [|rewrite Hl; auto].
    cbn. symmetry in Hload. apply Nat.eqb_neq in Hload.
    assert (Hzero : in_flight p = 0%nat) by lia. rewrite Hzero.
    repeat split; auto.
  - destruct (in_flight p) as [|n] eqn:Hn; [rewrite Hn; auto|].
    assert (Hzero : n = 0%nat) by lia. subst n. cbn [app in_flight].
    destruct (settle_fields answer (app p)) as [Hl [Ht|Ht]]; rewrite Hl, Ht;
      repeat split; auto; try discriminate. left.
  - destruct (_ && _) eqn:Hclick; [|auto].
    apply andb_true_iff in Hclick as [_ Hin%bool_decide_eq_true]. cbn. auto.
Qed.

Lemma run_snoc (events : list event) (e : event) :
  run ToBoolean (events ++ [e]) = step ToBoolean (run ToBoolean events) e.
Proof. unfold run. now rewrite fold_left_app. Qed.

Lemma run_invariant (events : list event) :
  (in_flight (run ToBoolean events) <= 1)%nat
  /\ loading (app (run ToBoolean events)) = (in_flight (run ToBoolean events) =? 1)%nat
  /\ (loading (app (run ToBoolean events)) = true ->
      error (app (run ToBoolean events)) = None)
  /\ activeTab (app (run ToBoolean events)) ∈ tabs.
Proof.
  induction events as [|e events (IH1 & IH2 & IH3 & IH4)] using rev_ind.
  - cbn. repeat split; auto. left.
  - rewrite run_snoc. now apply step_invariant.
Qed.

(** X6.  From the initial page, whatever the user types, however often the
    submit button and the tab buttons are pressed and whatever the network
    answers: at most one query is in flight, the component is loading
    exactly while one is, and while it is loading the submit button is
    disabled and no error card is shown.  The active tab is always one of
    the three; the results card shows the empty state exactly when there
    is no result or the result is falsy, and else the tab buttons over the
    one component of the active tab. *)
Theorem App_one_query_in_flight (events : list event) :
  (in_flight (run ToBoolean events) <= 1)%nat
  /\ (loading (app (run ToBoolean events)) = true
      <-> in_flight (run ToBoolean events) = 1%nat)
  /\ (loading (app (run ToBoolean events)) = true ->
      QueryInterface.disabled (loading (app (run ToBoolean events)))
        (form (run ToBoolean events)) = true
      /\ error_card (app (run ToBoolean events)) = None)
  /\ activeTab (app (run ToBoolean events)) ∈ tabs
  /\ (visible ToBoolean (app (run ToBoolean events)) = NoResults
      <-> no_result ToBoolean (app (run ToBoolean events)) = true)
  /\ (forall d : D,
        result (app (run ToBoolean events)) = Some d -> ToBoolean d = true ->
        visible ToBoolean (app (run ToBoolean events))
          ∈ [TemplateTab d; ValidationTab d; AuditTab d]).
Proof.
  destruct (run_invariant events) as (Hle & Hload & Herr & Htab).
  split; [exact Hle|]. split.
  { rewrite Hload. apply Nat.eqb_eq. }
  split.
  { intros Hl. split.
    - unfold QueryInterface.disabled. now rewrite Hl.
    - unfold error_card. now rewrite (Herr Hl). }
  split; [exact Htab|].
  unfold visible, no_result. unfold tabs in Htab. rewrite !elem_of_cons in Htab.
  destruct (result (app (run ToBoolean events))) as [d|].
  - split.
    + destruct (ToBoolean d); cbn; [|tauto].
      destruct Htab as [->|[->|[->|Htab]]]; cbn; try (split; discriminate).
      now apply elem_of_nil in Htab.
    + intros d' [= <-] ->. cbn.
      destruct Htab as [->|[->|[->|Htab]]]; cbn; rewrite !elem_of_cons; auto.
      now apply elem_of_nil in Htab.
  - split; [tauto|discriminate].
Qed.

End QueryEffects.

Section FormatCurrencyEdges.
Context (NumberFormat : JS.number_format).

(** X7.  Either [formatCurrency] throws exactly when the value is a number
    and the formatter rejects the currency; with [null] or [undefined] no
    formatter is built, so a rejected currency still gives the dash. *)
Theorem formatCurrency_throws_iff (value : JS.amount) (currency : option string) :
  (TemplateViewer.formatCurrency NumberFormat value currency = None
   <-> (exists x, value = JS.Amount x) /\ NumberFormat (default "GBP" currency) = None)
  /\ (AuditTrail.formatCurrency NumberFormat value currency = None
      <-> TemplateViewer.formatCurrency NumberFormat value currency = None).
Proof.
  unfold TemplateViewer.formatCurrency, AuditTrail.formatCurrency.
  destruct value as [| |x]; cbn.
  - split; [split; [discriminate|intros [[x [=]] _]]|tauto].
  - split; [split; [discriminate|intros [[x [=]] _]]|tauto].
  - destruct (NumberFormat (default "GBP" currency)) as [format|].
    + split; [split; [discriminate|intros [_ [=]]]|split; discriminate].
    + split; [split; [eauto|reflexivity]|tauto].
Qed.

(** X8.  The viewer's [formatCurrency] reads a number through its absolute
    value and the test [value < 0] only: a value that is not below zero,
    negative zero included, is shown as its absolute value is, and a
    negative one as its absolute value is, in parentheses. *)
Theorem formatCurrency_by_magnitude (x : JS.number) (currency : option string) :
  TemplateViewer.formatCurrency NumberFormat (JS.Amount x) currency
  = (fun shown => if JS.lt0 x then "(" ++ shown ++ ")" else shown)%string
      <$> TemplateViewer.formatCurrency NumberFormat (JS.Amount (JS.Math_abs x)) currency.
Proof.
  unfold TemplateViewer.formatCurrency.
  assert (Habs : JS.Math_abs (JS.Math_abs x) = JS.Math_abs x) by now destruct x.
  assert (Hpos : JS.lt0 (JS.Math_abs x) = false) by now destruct x.
  rewrite Habs, Hpos.
  destruct (NumberFormat (default "GBP" currency)); reflexivity.
Qed.

End FormatCurrencyEdges.

Section OtherKeys.
Import TemplateViewer.

Lemma get_skip (o1 o2 : JS.object) (k key : string) (v : JS.value) :
  k <> key -> JS.get (o1 ++ (k, v) :: o2) key = JS.get (o1 ++ o2) key.
Proof.
  intros Hne. induction o1 as [|[k' v'] o1 IH]; cbn.
  - destruct (String.eqb_spec k key); [contradiction|reflexivity].
  - now rewrite IH.
Qed.

(** X9.  A property of the object that is no [FIELD_META] row, such as
    [currency] or a row the table does not know, changes nothing in the
    rows displayed, wherever it stands and whatever it holds. *)
Theorem displayRows_ignores_other_keys (data1 data2 : JS.object) (k : string)
    (v : JS.value) :
  k ∉ row_ids ->
  displayRows (data1 ++ (k, v) :: data2) = displayRows (data1 ++ data2).
Proof.
  intros Hk. rewrite !displayRows_filter.
  assert (Hall : Forall (fun e : string * FieldMeta => fst e ∈ row_ids) FIELD_META).
  { apply list.Forall_forall. intros e He. unfold row_ids.
    apply list_elem_of_fmap. eauto. }
  induction Hall as [|e l He _ IH]; [reflexivity|].
  rewrite !filter_cons.
  assert (Hsame : has_value (data1 ++ (k, v) :: data2) e = has_value (data1 ++ data2) e).
  { destruct e as [key meta]. cbn [has_value fst] in *.
    rewrite get_skip; [reflexivity|]. intros ->. contradiction. }
  rewrite Hsame, IH. reflexivity.
Qed.

Lemma displayRows_ignores_other_keys_witness :
  displayRows [("row_010", JS.Num (JS.of_Z 5)); ("row_999", JS.Num (JS.of_Z 7))]
  = displayRows [("row_010", JS.Num (JS.of_Z 5))].
Proof.
  apply (displayRows_ignores_other_keys [("row_010", JS.Num (JS.of_Z 5))] []
           "row_999" (JS.Num (JS.of_Z 7))).
  apply (bool_decide_unpack _). vm_compute. reflexivity.
Defined.

End OtherKeys.

Section Table.
Import TemplateViewer TemplateTable.
Context (NumberFormat : JS.number_format).

Lemma typed_cell (data : JS.object) (e : string * FieldMeta) :
  typed data -> e ∈ displayRows data -> exists x, JS.get data e.1 = JS.Num x.
Proof.
  intros Ht He. apply andb_prop_elim in Ht as [_ Hrows].
  apply Is_true_eq_true in Hrows. rewrite forallb_forall in Hrows.
  rewrite displayRows_filter in He. apply list_elem_of_filter in He as [Hv He].
  apply has_value_spec in Hv as [Hnull Hundef].
  assert (Hk : In e.1 row_ids).
  { apply list_elem_of_In. unfold row_ids. apply list_elem_of_fmap. eauto. }
  specialize (Hrows _ Hk). destruct (JS.get data e.1); try discriminate; try congruence.
  eauto.
Qed.

Lemma table_rows_typed (data : JS.object) :
  typed data ->
  exists cur rows,
    currency_of data = Some cur
    /\ table_rows NumberFormat cur data = Some rows
    /\ Forall2 (renders NumberFormat data cur) (displayRows data) rows.
Proof.
  intros Ht. pose proof Ht as Ht'. apply andb_prop_elim in Ht' as [Hcur _].
  apply bool_decide_unpack in Hcur as [cur Hcur]. exists cur.
  assert (Hrows : Forall (fun e => is_Some (row NumberFormat cur e <$> cell data e))
                         (displayRows data)).
  { apply list.Forall_forall. intros e He.
    destruct (typed_cell data e Ht He) as [x Hx]. unfold cell. rewrite Hx. eauto. }
  apply mapM_is_Some_2 in Hrows as [rows Hrows]. exists rows.
  split; [exact Hcur|]. split; [exact Hrows|].
  apply mapM_Some_1 in Hrows. eapply Forall2_impl; [exact Hrows|].
  intros e r Her. unfold cell in Her. unfold renders.
  destruct (JS.get data e.1); try discriminate Her.
  injection Her as <-. eauto.
Qed.

Lemma table_rows_renders (data : JS.object) (cur : string) (rows : list Row) :
  table_rows NumberFormat cur data = Some rows ->
  Forall2 (renders NumberFormat data cur) (displayRows data) rows.
Proof.
  intros Hrows. apply mapM_Some_1 in Hrows. eapply Forall2_impl; [exact Hrows|].
  intros e r Her. unfold cell in Her. unfold renders.
  destruct (JS.get data e.1); try discriminate Her.
  injection Her as <-. eauto.
Qed.

Lemma TemplateViewer_eq (data : JS.object) (cur : string) (rows : list Row) :
  currency_of data = Some cur ->
  table_rows NumberFormat cur data = Some rows ->
  TemplateTable.TemplateViewer NumberFormat (Some data)
  = Some (if all_formatted rows
          then Rendered (Table cur rows (length (displayRows data) =? 0)%nat)
          else RangeError).
Proof.
  intros Hcur Hrows. unfold TemplateTable.TemplateViewer.
  rewrite Hcur. cbn [mbind option_bind]. rewrite Hrows. reflexivity.
Qed.

Lemma TemplateViewer_inv (data : JS.object) (out : rendering) :
  TemplateTable.TemplateViewer NumberFormat (Some data) = Some out ->
  exists cur rows,
    currency_of data = Some cur
    /\ table_rows NumberFormat cur data = Some rows
    /\ out = (if all_formatted rows
              then Rendered (Table cur rows (length (displayRows data) =? 0)%nat)
              else RangeError).
Proof.
  unfold TemplateTable.TemplateViewer. intros Hview.
  destruct (currency_of data) as [cur|]; [|discriminate Hview].
  cbn [mbind option_bind] in Hview.
  destruct (table_rows NumberFormat cur data) as [rows|] eqn:Hrows; [|discriminate Hview].
  cbn [mbind option_bind] in Hview. injection Hview as <-.
  exists cur, rows. split; [reflexivity|]. split; [exact Hrows|reflexivity].
Qed.

(** A row is evaluated without an error exactly when the formatter takes
    the currency. *)
Lemma row_amount (cur : string) (e : string * FieldMeta) (x : JS.number) :
  amount (row NumberFormat cur e x)
  = (fun format => if JS.lt0 x
                   then ("(" ++ format (JS.Math_abs x) ++ ")")%string
                   else format (JS.Math_abs x)) <$> NumberFormat cur.
Proof.
  destruct e as [k meta]. cbn [row amount].
  unfold formatCurrency. cbv zeta. change (default "GBP" (Some cur)) with cur.
  destruct (NumberFormat cur); reflexivity.
Qed.

Lemma all_formatted_rows (data : JS.object) (cur : string)
    (es : list (string * FieldMeta)) (rows : list Row) :
  Forall2 (renders NumberFormat data cur) es rows ->
  all_formatted rows
  = match NumberFormat cur with
    | Some _ => true
    | None => (length es =? 0)%nat
    end.
Proof.
  unfold all_formatted.
  induction 1 as [|e r es rs (x & _ & ->) _ IH]; [now destruct (NumberFormat cur)|].
  cbn [forallb length]. rewrite IH, row_amount.
  destruct (NumberFormat cur); reflexivity.
Qed.

Lemma all_formatted_spec (rows : list Row) :
  all_formatted rows = true <-> Forall (fun r => is_Some (amount r)) rows.
Proof.
  unfold all_formatted. induction rows as [|r rs IH]; [split; [constructor|reflexivity]|].
  cbn [forallb]. rewrite andb_true_iff, IH, bool_decide_eq_true, list.Forall_cons.
  reflexivity.
Qed.

Lemma not_all_formatted (rows : list Row) :
  all_formatted rows = false <-> Exists (fun r => amount r = None) rows.
Proof.
  unfold all_formatted. induction rows as [|r rs IH].
  - split; [discriminate|]. intros H. inversion H.
  - cbn [forallb]. rewrite andb_false_iff, IH, bool_decide_eq_false, Exists_cons.
    rewrite <- eq_None_not_Some. reflexivity.
Qed.

Lemma FIELD_META_consistent :
  Forall (fun e : string * FieldMeta =>
            ("row_" ++ JS.replace "row_" "" e.1)%string = e.1
            /\ is_Some (color_of (TemplateViewer.category e.2)))
         FIELD_META.
Proof. apply (bool_decide_unpack _). vm_compute. reflexivity. Qed.

(** X10.  For data within the response's types the component builds one
    table row per displayed entry, in the same order; the row number shown
    is the key without its [row_] prefix, every category has a colour, and
    the header's currency is GBP unless the data names one.  The table is
    rendered when the formatter takes that currency, and when there is no
    row to format; with a row and a currency the formatter rejects, the
    render ends in the RangeError and shows nothing. *)
Theorem TemplateViewer_rows (data : JS.object) :
  typed data ->
  exists cur rows,
    cur = match JS.get data "currency" with
          | JS.Str s => if String.eqb s "" then "GBP" else s
          | _ => "GBP"
          end
    /\ table_rows NumberFormat cur data = Some rows
    /\ map key rows = map fst (displayRows data)
    /\ Forall (fun r => ("row_" ++ rowNum r)%string = key r /\ is_Some (color r)) rows
    /\ TemplateTable.TemplateViewer NumberFormat (Some data)
       = Some (match NumberFormat cur with
               | Some _ => Rendered (Table cur rows (length (displayRows data) =? 0)%nat)
               | None =>
                   if (length (displayRows data) =? 0)%nat
                   then Rendered (Table cur rows true)
                   else RangeError
               end).
Proof.
  intros Ht. destruct (table_rows_typed data Ht) as (cur & rows & Hcur & Htable & Hrows).
  exists cur, rows. split.
  { unfold currency_of in Hcur.
    destruct (JS.get data "currency") as [| |[|neg|neg m e]|s|[|]]; try discriminate Hcur;
      try (now injection Hcur as <-).
    destruct (m =? 0)%N; [now injection Hcur as <-|discriminate Hcur]. }
  split; [exact Htable|].
  assert (Hview : TemplateTable.TemplateViewer NumberFormat (Some data)
                  = Some (match NumberFormat cur with
                          | Some _ =>
                              Rendered (Table cur rows (length (displayRows data) =? 0)%nat)
                          | None =>
                              if (length (displayRows data) =? 0)%nat
                              then Rendered (Table cur rows true)
                              else RangeError
                          end)).
  { rewrite (TemplateViewer_eq data cur rows Hcur Htable).
    rewrite (all_formatted_rows data cur _ rows Hrows).
    destruct (NumberFormat cur); [reflexivity|].
    destruct (length (displayRows data) =? 0)%nat; reflexivity. }
  assert (Hin : Forall (fun e => e ∈ FIELD_META) (displayRows data)).
  { apply list.Forall_forall. intros e He. rewrite displayRows_filter in He.
    now apply list_elem_of_filter in He. }
  pose proof FIELD_META_consistent as Hmeta. rewrite list.Forall_forall in Hmeta.
  clear Htable. revert Hview. generalize (length (displayRows data) =? 0)%nat.
  intros note Hview.
  cut (map key rows = map fst (displayRows data)
       /\ Forall (fun r => ("row_" ++ rowNum r)%string = key r /\ is_Some (color r)) rows).
  { intros [H1 H2]. split; [exact H1|]. split; [exact H2|exact Hview]. }
  clear Hview.
  induction Hrows as [|e r es rs (x & Hx & ->) _ IH]; [split; [reflexivity|constructor]|].
  apply list.Forall_cons in Hin as [He Hin]. destruct (IH Hin) as [IH1 IH2].
  split.
  - cbn [map]. rewrite IH1. now destruct e.
  - constructor; [|exact IH2]. destruct (Hmeta e He) as [Hnum Hcol]. now destruct e.
Qed.

(** X11.  In the rows the component builds, the amount of a row is the
    formatted absolute value of its number, in parentheses when the number
    is below zero, which is exactly when the cell has the class
    [negative]; the dash of a missing value never appears.  The table is
    rendered with these rows exactly when every amount could be
    formatted. *)
Theorem TemplateViewer_amounts (data : JS.object) (cur : string) (rows : list Row) :
  typed data ->
  currency_of data = Some cur ->
  table_rows NumberFormat cur data = Some rows ->
  Forall (fun r =>
            exists x,
              JS.get data (key r) = JS.Num x
              /\ amount r
                 = (fun format => if JS.lt0 x
                                  then ("(" ++ format (JS.Math_abs x) ++ ")")%string
                                  else format (JS.Math_abs x)) <$> NumberFormat cur
              /\ (value_class r = "row-value negative" <-> JS.lt0 x = true)
              /\ (value_class r = "row-value positive" <-> JS.lt0 x = false))
         rows
  /\ (TemplateTable.TemplateViewer NumberFormat (Some data)
      = Some (Rendered (Table cur rows (length (displayRows data) =? 0)%nat))
      <-> Forall (fun r => is_Some (amount r)) rows)
  /\ (TemplateTable.TemplateViewer NumberFormat (Some data) = Some RangeError
      <-> Exists (fun r => amount r = None) rows).
Proof.
  intros Ht Hcur Htable.
  pose proof (table_rows_renders data cur rows Htable) as Hrows.
  rewrite (TemplateViewer_eq data cur rows Hcur Htable).
  split; [|split].
  - clear Htable.
    induction Hrows as [|e r es rs (x & Hx & ->) _ IH]; constructor; [|exact IH].
    exists x. rewrite row_amount. destruct e as [k meta].
    cbn [row key value_class fst] in *.
    split; [exact Hx|]. split; [reflexivity|].
    destruct (JS.lt0 x); cbn; split; split; intros H; try reflexivity; discriminate H.
  - destruct (all_formatted rows) eqn:Hall; split; intros H.
    + now apply all_formatted_spec.
    + reflexivity.
    + discriminate H.
    + apply all_formatted_spec in H. congruence.
  - destruct (all_formatted rows) eqn:Hall; split; intros H.
    + discriminate H.
    + apply not_all_formatted in H. congruence.
    + now apply not_all_formatted.
    + reflexivity.
Qed.

(** X12.  The component renders nothing without data; with data, the note
    "No data populated in template" is shown exactly when the table has no
    row, which is when every [FIELD_META] row is null or absent.  A render
    that ends in the RangeError had a row to format. *)
Theorem TemplateViewer_empty_note (data : JS.object) :
  TemplateTable.TemplateViewer NumberFormat None = Some (Rendered Nothing)
  /\ (forall (cur : string) (rows : list Row) (note : bool),
        TemplateTable.TemplateViewer NumberFormat (Some data)
        = Some (Rendered (Table cur rows note)) ->
        (note = true <-> rows = [])
        /\ (note = true <->
             forall k, k ∈ row_ids ->
                       JS.get data k = JS.Null \/ JS.get data k = JS.Undefined))
  /\ (TemplateTable.TemplateViewer NumberFormat (Some data) = Some RangeError ->
      exists k, k ∈ row_ids /\ JS.get data k <> JS.Null /\ JS.get data k <> JS.Undefined).
Proof.
  assert (Hnone : displayRows data = [] <->
                  forall k, k ∈ row_ids ->
                            JS.get data k = JS.Null \/ JS.get data k = JS.Undefined).
  { rewrite displayRows_filter. split.
    + intros Hnil k [e [-> He]]%list_elem_of_fmap.
      destruct (JS.get data e.1) eqn:Hg; auto; exfalso;
        (assert (Hin : e ∈ filter (has_value data) FIELD_META)
          by (apply list_elem_of_filter; split; [apply has_value_spec; rewrite Hg; split; discriminate|exact He]));
        rewrite Hnil in Hin; now apply elem_of_nil in Hin.
    + intros Hall. destruct (filter (has_value data) FIELD_META) as [|e l] eqn:E; [reflexivity|].
      assert (Hin : e ∈ filter (has_value data) FIELD_META) by (rewrite E; left).
      apply list_elem_of_filter in Hin as [[Hn Hu]%has_value_spec He].
      destruct (Hall e.1) as [H|H]; [|contradiction|contradiction].
      unfold row_ids. apply list_elem_of_fmap. eauto. }
  split; [reflexivity|]. split.
  - intros cur rows note Hview.
    apply TemplateViewer_inv in Hview as (cur' & rows' & _ & Htable & Hout).
    destruct (all_formatted rows'); [|discriminate Hout].
    injection Hout as -> -> ->.
    apply length_mapM in Htable.
    rewrite Nat.eqb_eq. split.
    + rewrite Htable. apply length_zero_iff_nil.
    + rewrite length_zero_iff_nil. exact Hnone.
  - intros Hview.
    apply TemplateViewer_inv in Hview as (cur' & rows' & _ & Htable & Hout).
    destruct (all_formatted rows') eqn:Hall; [discriminate Hout|].
    apply length_mapM in Htable.
    destruct (displayRows data) as [|e es] eqn:Hrows.
    + destruct rows'; [discriminate Hall|discriminate Htable].
    + assert (He : e ∈ displayRows data) by (rewrite Hrows; left).
      rewrite displayRows_filter in He.
      apply list_elem_of_filter in He as [[Hn Hu]%has_value_spec He].
      exists e.1. split; [|split; assumption].
      unfold row_ids. apply list_elem_of_fmap. eauto.
Qed.

End Table.

Section MoreWitnesses.


Lemma AuditTrail_cards_and_summary_witness :
  AuditTrail.fieldEntries [entry "row_010"] = [entry "row_010"]
  /\ AuditTrail.overallEntry [entry "row_010"] = None.
Proof.
  apply (proj2 (proj2 (AuditTrail_cards_and_summary [entry "row_010"]))).
  repeat constructor. discriminate.
Defined.

(** A body that parses to 7 is shown; one that parses to 0 leaves the
    empty state on screen, the tab buttons not even rendered; the error of
    an earlier query stays when the answer of this one arrives. *)
Lemma handleQuery_success_witness :
  AppView.settle (App.Resolved true "OK" (inr 7%nat)) stale_state
  = {| App.loading := false; App.result := Some 7%nat; App.error := Some "old";
       App.activeTab := "template" |}
  /\ AppView.visible nonzero (AppView.settle (App.Resolved true "OK" (inr 7%nat)) stale_state)
     = AppView.TemplateTab 7%nat
  /\ AppView.visible nonzero (AppView.settle (App.Resolved true "OK" (inr 0%nat)) stale_state)
     = AppView.NoResults.
Proof.
  split; [|split].
  - exact (proj1 (handleQuery_success (fun j : App.json => j) nonzero
                    (App.Resolved true "OK" (inr 7%nat)) 7%nat eq_refl) stale_state).
  - exact (proj1 (proj2 (proj2 (handleQuery_success (fun j : App.json => j) nonzero
                    (App.Resolved true "OK" (inr 7%nat)) 7%nat eq_refl))) stale_state).
  - exact (proj1 (proj2 (proj2 (handleQuery_success (fun j : App.json => j) nonzero
                    (App.Resolved true "OK" (inr 0%nat)) 0%nat eq_refl))) stale_state).
Defined.

Lemma handleQuery_failure_witness :
  snd (App.handleQuery (fun j => j)
         (fun _ => App.Resolved false "Bad Gateway" (inl ""))
         (JS.lit "q") (JS.lit "s") stale_state)
  = {| App.loading := false; App.result := Some 3%nat;
       App.error := Some "Error: Bad Gateway"; App.activeTab := "audit" |}.
Proof.
  exact (proj1 (handleQuery_failure (fun j => j) nonzero
                  (fun _ => App.Resolved false "Bad Gateway" (inl ""))
                  (JS.lit "q") (JS.lit "s") stale_state "Error: Bad Gateway" eq_refl)).
Defined.

(** A question is typed and submitted: the component is loading, a second
    press of the button sends nothing, and the answer ends the loading. *)
Lemma App_one_query_in_flight_witness :
  App.loading
    (AppView.app
       (AppView.run nonzero
          [AppView.Edit_question (JS.lit "q"); AppView.Press_submit;
           AppView.Press_submit])) = true
  /\ AppView.visible nonzero
       (AppView.app
          (AppView.run nonzero
             [AppView.Edit_question (JS.lit "q"); AppView.Press_submit;
              AppView.Answer (App.Resolved true "OK" (inr 7%nat));
              AppView.Click "audit"]))
     = AppView.AuditTab 7%nat.
Proof.
  split.
  - apply (proj2 (proj1 (proj2 (App_one_query_in_flight nonzero
             [AppView.Edit_question (JS.lit "q"); AppView.Press_submit;
              AppView.Press_submit])))).
    reflexivity.
  - reflexivity.
Defined.

(** Euros are formatted and the table is rendered; "POUNDS" is not a
    currency code, and the render of a populated row ends in the error. *)
Lemma TemplateViewer_rows_witness :
  TemplateTable.TemplateViewer JS.NumberFormat_enGB (Some pounds_data)
  = Some TemplateTable.RangeError
  /\ exists rows,
       TemplateTable.TemplateViewer JS.NumberFormat_enGB (Some priced_data)
       = Some (TemplateTable.Rendered (TemplateTable.Table "EUR" rows false))
       /\ map TemplateTable.key rows = ["row_010"; "row_080"].
Proof.
  split.
  - destruct (TemplateViewer_rows JS.NumberFormat_enGB pounds_data I)
      as (cur & rows & Hcur & _ & _ & _ & Hview).
    rewrite Hview. vm_compute in Hcur. rewrite Hcur. vm_compute. reflexivity.
  - destruct (TemplateViewer_rows JS.NumberFormat_enGB priced_data I)
      as (cur & rows & Hcur & _ & Hkeys & _ & Hview).
    exists rows. split; [|exact Hkeys].
    rewrite Hview. vm_compute in Hcur. rewrite Hcur. vm_compute. reflexivity.
Defined.

Lemma TemplateViewer_amounts_witness :
  Forall (fun r => exists x, JS.get priced_data (TemplateTable.key r) = JS.Num x)
    [ TemplateTable.row JS.NumberFormat_enGB "EUR"
        ("row_010", {| TemplateViewer.label := "Capital instruments eligible as CET1";
                       TemplateViewer.category := "CET1";
                       TemplateViewer.isTotal := false |}) (JS.of_Z 1000);
      TemplateTable.row JS.NumberFormat_enGB "EUR"
        ("row_080", {| TemplateViewer.label := "(-) Goodwill & intangibles";
                       TemplateViewer.category := "CET1 Deductions";
                       TemplateViewer.isTotal := false |}) (JS.of_Z (-50)) ].
Proof.
  eapply Forall_impl;
    [exact (proj1 (TemplateViewer_amounts JS.NumberFormat_enGB priced_data "EUR" _
                     I eq_refl eq_refl))|].
  intros r (x & Hx & _). exists x. exact Hx.
Defined.

Lemma TemplateViewer_empty_note_witness :
  TemplateTable.TemplateViewer JS.NumberFormat_enGB (Some []) 
  = Some (TemplateTable.Rendered (TemplateTable.Table "GBP" [] true))
  /\ TemplateTable.TemplateViewer JS.NumberFormat_enGB None
     = Some (TemplateTable.Rendered TemplateTable.Nothing).
Proof.
  split; [reflexivity|].
  exact (proj1 (TemplateViewer_empty_note JS.NumberFormat_enGB [])).
Defined.

End MoreWitnesses.

Section SubmitButton.

(** X13.  The submit button is enabled exactly when the component is not
    loading and a submission would call [onSubmit].  The handler itself
    does not look at [loading]: a form submitted while the button is
    disabled still calls [onSubmit] when the question is not blank. *)
Theorem QueryInterface_enabled_iff_submits {R : Type}
    (onSubmit : JS.ustring -> JS.ustring -> R) (s : QueryInterface.state)
    (loading : bool) :
  (QueryInterface.disabled loading s = false
   <-> loading = false /\ is_Some (QueryInterface.handleSubmit onSubmit s))
  /\ (QueryInterface.disabled loading s = true
      /\ is_Some (QueryInterface.handleSubmit onSubmit s)
      <-> loading = true /\ existsb not_space (QueryInterface.question s) = true).
Proof.
  unfold QueryInterface.disabled. rewrite handleSubmit_eq, truthy_trim.
  destruct loading, (existsb not_space (QueryInterface.question s)); cbn;
    (split; split; [intros H|intros [H1 H2]|intros [H1 H2]|intros [H1 H2]]);
    try discriminate; try (now destruct H2); try (now destruct H1 as [? [=]]);
    try (split; [reflexivity|eexists; reflexivity]);
    try (split; reflexivity); try reflexivity.
Qed.

End SubmitButton.
